(** * OpenCTI MCP server: a shallow embedding of [server.py]

    The server exposes three tools.  Each one posts a fixed GraphQL query to
    the OpenCTI endpoint through [OpenCTIClient.execute_query], navigates the
    decoded JSON answer with Python's dynamic operations ([dict.get],
    subscripting, truthiness, [or], f-strings, [str.join]) and returns a text.

    The embedding keeps that dynamic character: a decoded JSON document is a
    value of type [json], every Python operation that may raise returns a
    [result], and the exceptions are the ones CPython raises, with the text
    [str(e)] gives them in CPython 3.12 (the catch-all of [execute_query]
    prints it).  Of httpx and fastmcp the model keeps what the client relies
    on: [raise_for_status] raises on every status outside 2xx, and
    [ToolError] is an [Exception].

    Not modelled: logging (no result depends on it), JSON floating point
    numbers (numbers are integers here) and characters beyond bytes (a
    [string] is the UTF-8 byte sequence of the Python text; [repr] does not
    escape the non-printable characters beyond ASCII). *)

From Stdlib Require Import String Ascii List ZArith Lia Bool.
From Stdlib Require Import DecimalString.
Import ListNotations.

Local Open Scope string_scope.
Local Open Scope Z_scope.

(** ** Python values and exceptions *)

Module Py.

(** What [response.json()] can produce: None, bool, int, str, list, dict.  A
    dict is an association list in insertion order; a lookup takes the first
    binding of a key (a decoded object binds each key once). *)
#[local] Unset Elimination Schemes.
Inductive json : Type :=
| JNull
| JBool (b : bool)
| JNum (z : Z)
| JStr (s : string)
| JArr (items : list json)
| JObj (fields : list (string * json)).
#[local] Set Elimination Schemes.

(** A subscript: [x["node"]] or [x[0]]. *)
Inductive key : Type :=
| KStr (s : string)
| KInt (i : Z).

Inductive exn : Type :=
| KeyError (k : key)
| IndexError (msg : string)
| TypeError (msg : string)
| AttributeError (msg : string)
| JSONDecodeError (msg : string)
| HTTPStatusError (status_code : Z) (text : string)
| RequestError (msg : string)
| ToolError (msg : string).

Inductive result (A : Type) : Type :=
| Ok (a : A)
| Raise (e : exn).

Arguments Ok {A} a.
Arguments Raise {A} e.

Definition bind {A B : Type} (m : result A) (k : A -> result B) : result B :=
  match m with
  | Ok a => k a
  | Raise e => Raise e
  end.

(** [try: m except ...: h e] *)
Definition try_except {A : Type} (m : result A) (h : exn -> result A) : result A :=
  match m with
  | Ok a => Ok a
  | Raise e => h e
  end.

Declare Scope py_scope.
Delimit Scope py_scope with py.
Notation "x <- m ;; k" := (bind m (fun x => k))
  (at level 61, m at next level, right associativity) : py_scope.

(** [for x in xs: body x], stopping at the first exception; the values the
    body produces are collected in order (a loop of [append]s, or a list
    comprehension). *)
Fixpoint for_each {A B : Type} (body : A -> result B) (xs : list A) : result (list B) :=
  match xs with
  | [] => Ok []
  | x :: rest =>
      bind (body x) (fun y => bind (for_each body rest) (fun ys => Ok (y :: ys)))
  end.

(** *** Text *)

Definition nl : string := String (ascii_of_nat 10) EmptyString.

(** [sep.join(parts)] on a list of str. *)
Fixpoint join (sep : string) (parts : list string) : string :=
  match parts with
  | [] => EmptyString
  | [p] => p
  | p :: rest => p ++ sep ++ join sep rest
  end.

(** [text.split("\n")] *)
Fixpoint split_lines_aux (cur : string) (s : string) : list string :=
  match s with
  | EmptyString => [cur]
  | String c rest =>
      if Ascii.eqb c (ascii_of_nat 10)
      then cur :: split_lines_aux EmptyString rest
      else split_lines_aux (cur ++ String c EmptyString) rest
  end.

Definition split_lines (s : string) : list string := split_lines_aux EmptyString s.

(** [needle in hay] on str. *)
Fixpoint contains (needle hay : string) : bool :=
  String.prefix needle hay ||
  match hay with
  | EmptyString => false
  | String _ rest => contains needle rest
  end.

(** [str(n)] on int. *)
Definition str_int (z : Z) : string := NilZero.string_of_int (Z.to_int z).

Definition type_name (v : json) : string :=
  match v with
  | JNull => "NoneType"
  | JBool _ => "bool"
  | JNum _ => "int"
  | JStr _ => "str"
  | JArr _ => "list"
  | JObj _ => "dict"
  end.

(** *** [repr] and [str] *)

Definition hex_digit (n : nat) : ascii :=
  nth n (list_ascii_of_string "0123456789abcdef") "0"%char.

Definition has_char (c : ascii) (s : string) : bool :=
  existsb (Ascii.eqb c) (list_ascii_of_string s).

Definition dquote : ascii := ascii_of_nat 34.

(** One character inside a quoted [repr]; [q] is the quote in use.  Bytes
    above 127 belong to a UTF-8 sequence and are kept as they are: this is
    what CPython does for the printable characters beyond ASCII only (it
    escapes the others, U+0080 to U+00A0, U+00AD, U+2028 and the like), so
    [repr] is that of CPython on texts whose characters beyond ASCII are
    printable. *)
Definition repr_char (q : ascii) (c : ascii) : string :=
  let n := nat_of_ascii c in
  if Ascii.eqb c q then String "\" (String c EmptyString)
  else if Ascii.eqb c "\" then "\\"
  else if Nat.eqb n 10 then "\n"
  else if Nat.eqb n 13 then "\r"
  else if Nat.eqb n 9 then "\t"
  else if (Nat.ltb n 32 || Nat.eqb n 127)%bool
       then "\x" ++ String (hex_digit (n / 16)) (String (hex_digit (n mod 16)) EmptyString)
  else String c EmptyString.

(** [repr(s)] on str: single quotes, unless the text has a single quote and
    no double quote. *)
Definition repr_str (s : string) : string :=
  let q := if (has_char "'" s && negb (has_char dquote s))%bool then dquote else "'"%char in
  String q (String.concat EmptyString (map (repr_char q) (list_ascii_of_string s))) ++ String q EmptyString.

Fixpoint repr (v : json) : string :=
  match v with
  | JNull => "None"
  | JBool true => "True"
  | JBool false => "False"
  | JNum z => str_int z
  | JStr s => repr_str s
  | JArr items => "[" ++ join ", " (map repr items) ++ "]"
  | JObj fields =>
      "{" ++ join ", " (map (fun kv => repr_str (fst kv) ++ ": " ++ repr (snd kv)) fields) ++ "}"
  end.

(** [str(v)], which is what [f"{v}"] inserts. *)
Definition str (v : json) : string :=
  match v with
  | JStr s => s
  | _ => repr v
  end.

(** [str(e)] on an exception: its message; a KeyError prints the [repr] of
    the missing key.  The message of an HTTPStatusError is left empty: the
    client never prints it, it reads [e.response] instead. *)
Definition exn_str (e : exn) : string :=
  match e with
  | KeyError (KStr s) => repr_str s
  | KeyError (KInt i) => str_int i
  | IndexError msg => msg
  | TypeError msg => msg
  | AttributeError msg => msg
  | JSONDecodeError msg => msg
  | HTTPStatusError _ _ => EmptyString
  | RequestError msg => msg
  | ToolError msg => msg
  end.

(** *** Truthiness, [or], [==] *)

(** [bool(v)]: None, False, 0, the empty str, list and dict are false. *)
Definition truthy (v : json) : bool :=
  match v with
  | JNull => false
  | JBool b => b
  | JNum z => negb (z =? 0)
  | JStr s => negb (String.eqb s EmptyString)
  | JArr items => match items with [] => false | _ => true end
  | JObj fields => match fields with [] => false | _ => true end
  end.

(** [a or b]; [b] is evaluated only when [a] is false. *)
Definition or_else (a : json) (b : result json) : result json :=
  if truthy a then Ok a else b.

(** [v == 'text'] *)
Definition eq_str (v : json) (s : string) : bool :=
  match v with
  | JStr t => String.eqb t s
  | _ => false
  end.

(** *** Containers *)

Fixpoint lookup (k : string) (fields : list (string * json)) : option json :=
  match fields with
  | [] => None
  | (k', v) :: rest => if String.eqb k k' then Some v else lookup k rest
  end.

(** [v.get(k, default)]; only a dict has the method. *)
Definition get (v : json) (k : string) (default : json) : result json :=
  match v with
  | JObj fields =>
      match lookup k fields with
      | Some x => Ok x
      | None => Ok default
      end
  | _ => Raise (AttributeError ("'" ++ type_name v ++ "' object has no attribute 'get'"))
  end.

(** [xs[i]] on a sequence of length [length xs], with Python's negative
    indices. *)
Definition index {A : Type} (xs : list A) (i : Z) : option A :=
  let n := Z.of_nat (length xs) in
  if (0 <=? i) && (i <? n) then nth_error xs (Z.to_nat i)
  else if (- n <=? i) && (i <? 0) then nth_error xs (Z.to_nat (n + i))
  else None.

(** [v[k]] *)
Definition getitem (v : json) (k : key) : result json :=
  match v, k with
  | JObj fields, KStr s =>
      match lookup s fields with
      | Some x => Ok x
      | None => Raise (KeyError k)
      end
  | JObj _, KInt _ => Raise (KeyError k)
  | JArr items, KInt i =>
      match index items i with
      | Some x => Ok x
      | None => Raise (IndexError "list index out of range")
      end
  | JArr _, KStr _ => Raise (TypeError "list indices must be integers or slices, not str")
  | JStr s, KInt i =>
      match index (list_ascii_of_string s) i with
      | Some c => Ok (JStr (String c EmptyString))
      | None => Raise (IndexError "string index out of range")
      end
  | JStr _, KStr _ => Raise (TypeError "string indices must be integers, not 'str'")
  | _, _ => Raise (TypeError ("'" ++ type_name v ++ "' object is not subscriptable"))
  end.

(** ['text' in v] *)
Definition contains_str (needle : string) (v : json) : result bool :=
  match v with
  | JObj fields => Ok (match lookup needle fields with Some _ => true | None => false end)
  | JArr items => Ok (existsb (fun x => eq_str x needle) items)
  | JStr s => Ok (contains needle s)
  | _ => Raise (TypeError ("argument of type '" ++ type_name v ++ "' is not iterable"))
  end.

(** What [for x in v] ranges over: the items of a list, the keys of a dict,
    the characters of a str. *)
Definition iter (v : json) : result (list json) :=
  match v with
  | JArr items => Ok items
  | JObj fields => Ok (map (fun kv => JStr (fst kv)) fields)
  | JStr s => Ok (map (fun c => JStr (String c EmptyString)) (list_ascii_of_string s))
  | _ => Raise (TypeError ("'" ++ type_name v ++ "' object is not iterable"))
  end.

(** [sep.join(items)] on arbitrary values: every item has to be a str. *)
Fixpoint strings_from (pos : nat) (items : list json) : result (list string) :=
  match items with
  | [] => Ok []
  | JStr s :: rest => bind (strings_from (S pos) rest) (fun ss => Ok (s :: ss))
  | v :: _ =>
      Raise (TypeError ("sequence item " ++ str_int (Z.of_nat pos)
                        ++ ": expected str instance, " ++ type_name v ++ " found"))
  end.

Definition join_values (sep : string) (items : list json) : result string :=
  bind (strings_from 0 items) (fun ss => Ok (join sep ss)).

End Py.

Import Py.
Local Open Scope py_scope.

(** ** The part of httpx the client uses *)

Module Httpx.

(** An HTTP answer: [status_code], [text] (the raw body) and the outcome of
    [response.json()], which raises a JSONDecodeError on a body that is not
    JSON. *)
Record Response : Type := {
  status_code : Z;
  text : string;
  json : result Py.json
}.

(** What [await client.post(...)] comes to: an answer, or an
    [httpx.RequestError] (DNS, refused connection, timeout) with its
    description. *)
Inductive exchange : Type :=
| Answer (response : Response)
| Failure (cause : string).

Definition is_success (r : Response) : bool :=
  (200 <=? status_code r) && (status_code r <=? 299).

(** [response.raise_for_status()] raises on every status outside 2xx. *)
Definition raise_for_status (r : Response) : result unit :=
  if is_success r then Ok tt else Raise (HTTPStatusError (status_code r) (text r)).

Record request : Type := {
  url : string;
  payload : Py.json;
  headers : list (string * string)
}.

Definition post (x : exchange) : result Response :=
  match x with
  | Answer r => Ok r
  | Failure cause => Raise (RequestError cause)
  end.

End Httpx.

(** ** queries.py *)

Module Queries.

Definition q : string := String dquote EmptyString.

(** Búsqueda general (StixDomainObjects y StixCyberObservables) *)
Definition SEARCH_QUERY : string :=
  join nl [
    EmptyString;
    "query GlobalSearch($search: String!, $first: Int) {";
    "  globalSearch(search: $search, first: $first) {";
    "    edges {";
    "      node {";
    "        id";
    "        entity_type";
    "        ... on StixDomainObject {";
    "          created_at";
    "          name";
    "          description";
    "        }";
    "        ... on StixCyberObservable {";
    "          observable_value";
    "          x_opencti_description";
    "        }";
    "      }";
    "    }";
    "  }";
    "}";
    EmptyString
  ].

(** Obtener detalles de un Observable (IP, Hash, Domain) *)
Definition GET_OBSERVABLE_QUERY : string :=
  join nl [
    EmptyString;
    "query GetObservable($value: String!) {";
    "  stixCyberObservables(filters: {mode: and, filters: [{key: " ++ q ++ "value" ++ q ++ ", values: [$value]}], filterGroups: []}) {";
    "    edges {";
    "      node {";
    "        id";
    "        entity_type";
    "        observable_value";
    "        x_opencti_score";
    "        x_opencti_description";
    "        created_at";
    "        indicators {";
    "          edges {";
    "            node {";
    "              name";
    "              pattern";
    "            }";
    "          }";
    "        }";
    "        reports {";
    "          edges {";
    "            node {";
    "              name";
    "              published";
    "            }";
    "          }";
    "        }";
    "      }";
    "    }";
    "  }";
    "}";
    EmptyString
  ].

(** Obtener detalles de una Entidad (Threat Actor, Malware, etc.) *)
Definition GET_ENTITY_QUERY : string :=
  join nl [
    EmptyString;
    "query GetEntity($name: String!) {";
    "  stixDomainObjects(filters: {mode: and, filters: [{key: " ++ q ++ "name" ++ q ++ ", values: [$name]}], filterGroups: []}) {";
    "    edges {";
    "      node {";
    "        id";
    "        entity_type";
    "        name";
    "        description";
    "        created";
    "        ... on ThreatActor {";
    "          threat_actor_types";
    "          goals";
    "        }";
    "        ... on Malware {";
    "          malware_types";
    "          is_family";
    "        }";
    "      }";
    "    }";
    "  }";
    "}";
    EmptyString
  ].

End Queries.

(** ** server.py *)

Module Server.

Import Httpx Queries.

(** [base_url.rstrip("/")] *)
Fixpoint rstrip (c : ascii) (s : string) : string :=
  match s with
  | EmptyString => EmptyString
  | String a rest =>
      match rstrip c rest with
      | EmptyString => if Ascii.eqb a c then EmptyString else String a EmptyString
      | kept => String a kept
      end
  end.

Record OpenCTIClient : Type := {
  base_url : string;
  client_headers : list (string * string)
}.

(** [OpenCTIClient.__init__] *)
Definition new_client (url token : string) : OpenCTIClient :=
  {| base_url := rstrip "/" url ++ "/graphql";
     client_headers :=
       [ ("Authorization", "Bearer " ++ token);
         ("Content-Type", "application/json");
         ("User-Agent", "MCP-OpenCTI-Agent/1.0") ] |}.

(** The remote service, seen from the process: what a POST comes to. *)
Definition remote : Type := request -> exchange.

(** The request [execute_query] sends; [variables or {}]. *)
Definition query_request (self : OpenCTIClient) (query : string) (variables : Py.json) : request :=
  {| url := base_url self;
     payload := JObj [ ("query", JStr query);
                       ("variables", if truthy variables then variables else JObj []) ];
     headers := client_headers self |}.

(** The three [except] clauses of [execute_query], in order.  [ToolError]
    derives from [Exception], so the last clause also takes the one raised
    in the [try] body. *)
Definition on_exception (e : exn) : result Py.json :=
  match e with
  | HTTPStatusError code _ =>
      Raise (ToolError ("Error de conexión con OpenCTI: " ++ str_int code))
  | RequestError cause =>
      Raise (ToolError ("No se pudo conectar al servidor OpenCTI: " ++ cause))
  | other =>
      Raise (ToolError ("Error interno: " ++ exn_str other))
  end.

(** [OpenCTIClient.execute_query] *)
Definition execute_query (self : OpenCTIClient) (net : remote)
    (query : string) (variables : Py.json) : result Py.json :=
  try_except
    (response <- post (net (query_request self query variables)) ;;
     _ <- raise_for_status response ;;
     data <- json response ;;
     has_errors <- contains_str "errors" data ;;
     if has_errors then
       errors <- getitem data (KStr "errors") ;;
       first <- getitem errors (KInt 0) ;;
       message <- getitem first (KStr "message") ;;
       Raise (ToolError ("Error GraphQL: " ++ str message))
     else
       get data "data" (JObj []))
    on_exception.

(** The body of the loop of [search_knowledge_base]: one formatted entry. *)
Definition search_entry (edge : Py.json) : result string :=
  node <- getitem edge (KStr "node") ;;
  name <- (a <- get node "name" JNull ;;
           or_else a (b <- get node "observable_value" JNull ;;
                      or_else b (Ok (JStr "Desconocido")))) ;;
  desc <- (a <- get node "description" JNull ;;
           or_else a (b <- get node "x_opencti_description" JNull ;;
                      or_else b (Ok (JStr "Sin descripción")))) ;;
  entity_type <- getitem node (KStr "entity_type") ;;
  id <- getitem node (KStr "id") ;;
  Ok ("- [" ++ str entity_type ++ "] " ++ str name ++ " (ID: " ++ str id ++ "): " ++ str desc).

(** [search_knowledge_base(keyword, limit)] *)
Definition search_knowledge_base (client : OpenCTIClient) (net : remote)
    (keyword : string) (limit : Z) : result string :=
  data <- execute_query client net SEARCH_QUERY
            (JObj [("search", JStr keyword); ("first", JNum limit)]) ;;
  found <- get data "globalSearch" (JObj []) ;;
  edges <- get found "edges" (JArr []) ;;
  if negb (truthy edges) then
    Ok "No se encontraron resultados."
  else
    items <- iter edges ;;
    results <- for_each search_entry items ;;
    Ok (join nl results).

(** [indicators]: the names of the indicator edges of the node. *)
Definition related_indicators (node : Py.json) : result (list Py.json) :=
  conn <- get node "indicators" (JObj []) ;;
  edges <- get conn "edges" (JArr []) ;;
  items <- iter edges ;;
  for_each (fun i => n <- getitem i (KStr "node") ;; getitem n (KStr "name")) items.

(** [reports]: one [name (published)] text per report edge of the node. *)
Definition related_reports (node : Py.json) : result (list string) :=
  conn <- get node "reports" (JObj []) ;;
  edges <- get conn "edges" (JArr []) ;;
  items <- iter edges ;;
  for_each (fun r => n <- getitem r (KStr "node") ;;
                     name <- getitem n (KStr "name") ;;
                     n' <- getitem r (KStr "node") ;;
                     published <- getitem n' (KStr "published") ;;
                     Ok (str name ++ " (" ++ str published ++ ")"))
           items.

(** The list [output] of [get_observable_details], built from the first
    node. *)
Definition observable_output (node : Py.json) : result (list string) :=
  indicators <- related_indicators node ;;
  reports <- related_reports node ;;
  entity_type <- getitem node (KStr "entity_type") ;;
  observable_value <- getitem node (KStr "observable_value") ;;
  score <- (a <- get node "x_opencti_score" JNull ;; or_else a (Ok (JStr "N/A"))) ;;
  description <- (a <- get node "x_opencti_description" JNull ;; or_else a (Ok (JStr "N/A"))) ;;
  ind_text <- match indicators with
              | [] => Ok "Ninguno"
              | _ => join_values ", " indicators
              end ;;
  rep_text <- match reports with
              | [] => Ok "Ninguno"
              | _ => Ok (join ", " reports)
              end ;;
  Ok [ "Tipo: " ++ str entity_type;
       "Valor: " ++ str observable_value;
       "Score: " ++ str score;
       "Descripción: " ++ str description;
       "Indicadores asociados: " ++ ind_text;
       "Mencionado en reportes: " ++ rep_text ].

(** [get_observable_details(value)] *)
Definition get_observable_details (client : OpenCTIClient) (net : remote)
    (value : string) : result string :=
  data <- execute_query client net GET_OBSERVABLE_QUERY (JObj [("value", JStr value)]) ;;
  found <- get data "stixCyberObservables" (JObj []) ;;
  edges <- get found "edges" (JArr []) ;;
  if negb (truthy edges) then
    Ok ("No se encontró información para el observable: " ++ value)
  else
    first <- getitem edges (KInt 0) ;;
    node <- getitem first (KStr "node") ;;
    output <- observable_output node ;;
    Ok (join nl output).

(** The list [output] of [get_threat_entity], built from the first node. *)
Definition entity_output (node : Py.json) : result (list string) :=
  name <- getitem node (KStr "name") ;;
  entity_type <- getitem node (KStr "entity_type") ;;
  description <- (a <- get node "description" JNull ;; or_else a (Ok (JStr "N/A"))) ;;
  created <- (a <- get node "created" JNull ;; or_else a (Ok (JStr "N/A"))) ;;
  let output := [ "Nombre: " ++ str name;
                  "Tipo: " ++ str entity_type;
                  "Descripción: " ++ str description;
                  "Creado: " ++ str created ] in
  t1 <- getitem node (KStr "entity_type") ;;
  output <- (if eq_str t1 "Threat-Actor" then
               types <- get node "threat_actor_types" (JArr []) ;;
               goals <- get node "goals" (JArr []) ;;
               Ok (List.app output ["Tipos: " ++ str types; "Objetivos: " ++ str goals])
             else Ok output) ;;
  t2 <- getitem node (KStr "entity_type") ;;
  output <- (if eq_str t2 "Malware" then
               is_family <- get node "is_family" (JBool false) ;;
               Ok (List.app output ["Familia de malware: " ++ str is_family])
             else Ok output) ;;
  Ok output.

(** [get_threat_entity(name)] *)
Definition get_threat_entity (client : OpenCTIClient) (net : remote)
    (name : string) : result string :=
  data <- execute_query client net GET_ENTITY_QUERY (JObj [("name", JStr name)]) ;;
  found <- get data "stixDomainObjects" (JObj []) ;;
  edges <- get found "edges" (JArr []) ;;
  if negb (truthy edges) then
    Ok ("No se encontró la entidad: " ++ name)
  else
    first <- getitem edges (KInt 0) ;;
    node <- getitem first (KStr "node") ;;
    output <- entity_output node ;;
    Ok (join nl output).

(** Module level, past the logging setup: [OPENCTI_URL] and [OPENCTI_TOKEN]
    as [os.getenv] gives them.  The import raises a ValueError when one of
    them is missing or empty; otherwise the module's [client] is built from
    them. *)
Inductive startup : Type :=
| Ready (client : OpenCTIClient)
| ValueError (msg : string).

(** [not v] holds of a variable that is not set and of one that is empty. *)
Definition load_client (OPENCTI_URL OPENCTI_TOKEN : option string) : startup :=
  match OPENCTI_URL, OPENCTI_TOKEN with
  | Some url, Some token =>
      if (String.eqb url EmptyString || String.eqb token EmptyString)%bool then
        ValueError "Faltan OPENCTI_URL o OPENCTI_TOKEN en el archivo .env"
      else Ready (new_client url token)
  | _, _ => ValueError "Faltan OPENCTI_URL o OPENCTI_TOKEN en el archivo .env"
  end.

(** The tool surface registered with [@mcp.tool()]: a call names a tool and
    carries its arguments; [limit] defaults to 10. *)
Inductive tool_call : Type :=
| CallSearch (keyword : string) (limit : option Z)
| CallObservable (value : string)
| CallEntity (name : string).

Definition call_tool (client : OpenCTIClient) (net : remote) (c : tool_call) : result string :=
  match c with
  | CallSearch keyword limit =>
      search_knowledge_base client net keyword (match limit with Some n => n | None => 10 end)
  | CallObservable value => get_observable_details client net value
  | CallEntity name => get_threat_entity client net name
  end.

End Server.

Import Httpx Queries Server.

(** ** Describing what the remote answered *)

(** The request a tool call sends. *)
Definition request_of (client : OpenCTIClient) (c : tool_call) : request :=
  match c with
  | CallSearch keyword limit =>
      query_request client SEARCH_QUERY
        (JObj [("search", JStr keyword);
               ("first", JNum (match limit with Some n => n | None => 10 end))])
  | CallObservable value =>
      query_request client GET_OBSERVABLE_QUERY (JObj [("value", JStr value)])
  | CallEntity name =>
      query_request client GET_ENTITY_QUERY (JObj [("name", JStr name)])
  end.

(** The connection a tool reads in the [data] mapping. *)
Definition root_of (c : tool_call) : string :=
  match c with
  | CallSearch _ _ => "globalSearch"
  | CallObservable _ => "stixCyberObservables"
  | CallEntity _ => "stixDomainObjects"
  end.

(** The [data] member of a 2xx answer whose JSON body is an object without
    an [errors] member. *)
Definition delivered (x : exchange) : option Py.json :=
  match x with
  | Answer r =>
      if is_success r then
        match json r with
        | Ok (JObj body) =>
            match lookup "errors" body with
            | None => lookup "data" body
            | Some _ => None
            end
        | _ => None
        end
      else None
  | Failure _ => None
  end.

(** The edge list [data[root]["edges"]]. *)
Definition edges_at (root : string) (data : Py.json) : option (list Py.json) :=
  match data with
  | JObj d =>
      match lookup root d with
      | Some (JObj conn) =>
          match lookup "edges" conn with
          | Some (JArr es) => Some es
          | _ => None
          end
      | _ => None
      end
  | _ => None
  end.

(** What a tool does with the edge list it read: the no-results text on an
    empty list; otherwise every edge for a search, the first one only for an
    observable or an entity. *)
Definition on_edges (c : tool_call) (es : list Py.json) : result string :=
  match es with
    | [] =>
        Ok (match c with
            | CallSearch _ _ => "No se encontraron resultados."
            | CallObservable value =>
                "No se encontró información para el observable: " ++ value
            | CallEntity name => "No se encontró la entidad: " ++ name
            end)
    | first :: _ =>
        match c with
        | CallSearch _ _ =>
            results <- for_each search_entry es ;; Ok (join nl results)
        | CallObservable _ =>
            node <- getitem first (KStr "node") ;;
            output <- observable_output node ;; Ok (join nl output)
        | CallEntity _ =>
            node <- getitem first (KStr "node") ;;
            output <- entity_output node ;; Ok (join nl output)
        end
    end.

(** A field of the node of an edge, [edge["node"][f]], when it is there. *)
Definition node_field (f : string) (edge : Py.json) : option Py.json :=
  match edge with
  | JObj ef =>
      match lookup "node" ef with
      | Some (JObj nf) => lookup f nf
      | _ => None
      end
  | _ => None
  end.

(** What [node.get(f) or placeholder] evaluates to on a dict. *)
Definition or_default (v : option Py.json) (placeholder : string) : Py.json :=
  match v with
  | Some x => if truthy x then x else JStr placeholder
  | None => JStr placeholder
  end.

(** What [node.get(f, default)] evaluates to on a dict. *)
Definition field_or (v : option Py.json) (default : Py.json) : Py.json :=
  match v with
  | Some x => x
  | None => default
  end.

(** The edges of the relation [f] of a node; a relation that is absent has
    none. *)
Definition relation_edges (f : string) (nf : list (string * Py.json)) : option (list Py.json) :=
  match lookup f nf with
  | None => Some []
  | Some (JObj conn) =>
      match lookup "edges" conn with
      | None => Some []
      | Some (JArr es) => Some es
      | Some _ => None
      end
  | Some _ => None
  end.


Definition present (f : string) (nf : list (string * Py.json)) : bool :=
  match lookup f nf with Some _ => true | None => false end.

(** An indicator edge whose node has a [name] that is a str. *)
Definition named_edge (e : Py.json) : bool :=
  match node_field "name" e with Some (JStr _) => true | _ => false end.

Definition edge_name (e : Py.json) : string :=
  match node_field "name" e with Some (JStr s) => s | _ => EmptyString end.

(** A report edge whose node has a [name] and a [published]. *)
Definition report_edge (e : Py.json) : bool :=
  match node_field "name" e, node_field "published" e with
  | Some _, Some _ => true
  | _, _ => false
  end.

(** An observable node: [entity_type] and [observable_value] are there, and
    the relations carry well-formed edges. *)
Definition observable_record (nf : list (string * Py.json)) : bool :=
  present "entity_type" nf && present "observable_value" nf
  && match relation_edges "indicators" nf with
     | Some es => forallb named_edge es
     | None => false
     end
  && match relation_edges "reports" nf with
     | Some es => forallb report_edge es
     | None => false
     end.

(** An entity node: [name] and [entity_type] are there. *)
Definition entity_record (nf : list (string * Py.json)) : bool :=
  present "name" nf && present "entity_type" nf.

(** A search edge: its node has [entity_type] and [id]. *)
Definition hit_record (edge : Py.json) : bool :=
  match node_field "entity_type" edge, node_field "id" edge with
  | Some _, Some _ => true
  | _, _ => false
  end.

Definition newline : ascii := ascii_of_nat 10.

(** What [a or b or placeholder] evaluates to on two fields of a dict. *)
Definition or_default2 (a b : option Py.json) (placeholder : string) : Py.json :=
  match a with
  | Some x => if truthy x then x else or_default b placeholder
  | None => or_default b placeholder
  end.

(** *** For the rest of the module *)

(** The template and the variables a tool call passes to [execute_query]. *)
Definition query_of (c : tool_call) : string :=
  match c with
  | CallSearch _ _ => SEARCH_QUERY
  | CallObservable _ => GET_OBSERVABLE_QUERY
  | CallEntity _ => GET_ENTITY_QUERY
  end.

Definition variables_of (c : tool_call) : Py.json :=
  match c with
  | CallSearch keyword limit =>
      JObj [("search", JStr keyword);
            ("first", JNum (match limit with Some n => n | None => 10 end))]
  | CallObservable value => JObj [("value", JStr value)]
  | CallEntity name => JObj [("name", JStr name)]
  end.

(** The text a tool returns when there is nothing to show. *)
Definition no_results (c : tool_call) : string :=
  match c with
  | CallSearch _ _ => "No se encontraron resultados."
  | CallObservable value => "No se encontró información para el observable: " ++ value
  | CallEntity name => "No se encontró la entidad: " ++ name
  end.

(** What a tool does with the mapping [execute_query] returned: the rest of
    the handler after its first line. *)
Definition handle (c : tool_call) (data : Py.json) : result string :=
  found <- get data (root_of c) (JObj []) ;;
  edges <- get found "edges" (JArr []) ;;
  if negb (truthy edges) then
    Ok (no_results c)
  else
    match c with
    | CallSearch _ _ =>
        items <- iter edges ;;
        results <- for_each search_entry items ;;
        Ok (join nl results)
    | CallObservable _ =>
        first <- getitem edges (KInt 0) ;;
        node <- getitem first (KStr "node") ;;
        output <- observable_output node ;;
        Ok (join nl output)
    | CallEntity _ =>
        first <- getitem edges (KInt 0) ;;
        node <- getitem first (KStr "node") ;;
        output <- entity_output node ;;
        Ok (join nl output)
    end.

(** What [execute_query] returns on a 2xx answer whose JSON body is an object
    without an [errors] member: its [data] member, or an empty dict. *)
Definition returned (x : exchange) : option Py.json :=
  match x with
  | Answer r =>
      if is_success r then
        match json r with
        | Ok (JObj body) =>
            match lookup "errors" body with
            | None => Some (field_or (lookup "data" body) (JObj []))
            | Some _ => None
            end
        | _ => None
        end
      else None
  | Failure _ => None
  end.

(** The mapping has no edge list to show under [root]: the root or its
    [edges] member is absent, or [edges] is bound to a false value. *)
Definition edges_missing (root : string) (data : Py.json) : bool :=
  match data with
  | JObj d =>
      match lookup root d with
      | None => true
      | Some (JObj conn) =>
          match lookup "edges" conn with
          | None => true
          | Some v => negb (truthy v)
          end
      | Some _ => false
      end
  | _ => false
  end.

Definition is_dict (v : Py.json) : bool :=
  match v with JObj _ => true | _ => false end.

Definition is_str (v : Py.json) : bool :=
  match v with JStr _ => true | _ => false end.

(** The value that is not a dict on the way to the edge list: the mapping
    itself, or what it binds [root] to. *)
Definition not_a_dict_at (root : string) (data : Py.json) : option Py.json :=
  match data with
  | JObj d =>
      match lookup root d with
      | Some v => if is_dict v then None else Some v
      | None => None
      end
  | v => Some v
  end.

(** A field that is absent or bound to a false value. *)
Definition falsy_or_absent (v : option Py.json) : bool :=
  match v with
  | Some x => negb (truthy x)
  | None => true
  end.

(** The last character of [s] is [c]. *)
Fixpoint ends_with (c : ascii) (s : string) : bool :=
  match s with
  | EmptyString => false
  | String a EmptyString => Ascii.eqb a c
  | String _ rest => ends_with c rest
  end.

Fixpoint repeat_char (c : ascii) (k : nat) : string :=
  match k with
  | O => EmptyString
  | S k' => String c (repeat_char c k')
  end.

(** *** What the handlers print for a well-formed record *)

(** The text of a report edge that has its [name] and [published]:
    [f"{r['node']['name']} ({r['node']['published']})"]. *)
Definition report_text (e : Py.json) : string :=
  match node_field "name" e, node_field "published" e with
  | Some name, Some published => str name ++ " (" ++ str published ++ ")"
  | _, _ => EmptyString
  end.

(** The entry of a search edge that has its [entity_type] and [id]. *)
Definition entry_text (e : Py.json) : string :=
  match node_field "entity_type" e, node_field "id" e with
  | Some t, Some id =>
      "- [" ++ str t ++ "] "
      ++ str (or_default2 (node_field "name" e) (node_field "observable_value" e)
                "Desconocido")
      ++ " (ID: " ++ str id ++ "): "
      ++ str (or_default2 (node_field "description" e)
                (node_field "x_opencti_description" e) "Sin descripción")
  | _, _ => EmptyString
  end.

(** The six entries of an observable node with type [t], value [v],
    indicator edges [ies] and report edges [res]. *)
Definition observable_lines (nf : list (string * Py.json)) (t v : Py.json)
    (ies res : list Py.json) : list string :=
  [ "Tipo: " ++ str t;
    "Valor: " ++ str v;
    "Score: " ++ str (or_default (lookup "x_opencti_score" nf) "N/A");
    "Descripción: " ++ str (or_default (lookup "x_opencti_description" nf) "N/A");
    "Indicadores asociados: "
    ++ match ies with [] => "Ninguno" | _ => join ", " (map edge_name ies) end;
    "Mencionado en reportes: "
    ++ match res with [] => "Ninguno" | _ => join ", " (map report_text res) end ].

(** The entries of an entity node with name [n] and type [t]. *)
Definition entity_lines (nf : list (string * Py.json)) (n t : Py.json) : list string :=
  List.app
    [ "Nombre: " ++ str n;
      "Tipo: " ++ str t;
      "Descripción: " ++ str (or_default (lookup "description" nf) "N/A");
      "Creado: " ++ str (or_default (lookup "created" nf) "N/A") ]
    (List.app
       (if eq_str t "Threat-Actor"
        then [ "Tipos: " ++ str (field_or (lookup "threat_actor_types" nf) (JArr []));
               "Objetivos: " ++ str (field_or (lookup "goals" nf) (JArr [])) ]
        else [])
       (if eq_str t "Malware"
        then [ "Familia de malware: " ++ str (field_or (lookup "is_family" nf) (JBool false)) ]
        else [])).

(** ** Sample answers *)

Definition demo_client : OpenCTIClient := new_client "https://cti.example/" "token".

Definition answering (status : Z) (body : Py.json) : remote :=
  fun _ => Answer {| status_code := status; text := EmptyString; json := Ok body |}.

Definition edge_of (fields : list (string * Py.json)) : Py.json :=
  JObj [("node", JObj fields)].

Definition data_body (root : string) (edges : list Py.json) : Py.json :=
  JObj [("data", JObj [(root, JObj [("edges", JArr edges)])])].

Definition graphql_error_body : Py.json :=
  JObj [ ("errors", JArr [ JObj [("message", JStr "Unknown field"); ("locations", JArr [])];
                           JObj [("message", JStr "second")] ]);
         ("data", JNull) ].


Definition dns_node : list (string * Py.json) :=
  [ ("id", JStr "ipv4-addr--1"); ("entity_type", JStr "IPv4-Addr");
    ("observable_value", JStr "8.8.8.8"); ("x_opencti_score", JNum 50);
    ("indicators",
     JObj [("edges", JArr [ edge_of [("name", JStr "Google DNS"); ("pattern", JStr "p1")];
                            edge_of [("name", JStr "Public resolver"); ("pattern", JStr "p2")] ])]);
    ("reports",
     JObj [("edges", JArr [ edge_of [("name", JStr "DNS abuse"); ("published", JStr "2024-01-01")] ])]) ].

Definition unscored_node : list (string * Py.json) :=
  [ ("id", JStr "domain-name--1"); ("entity_type", JStr "Domain-Name");
    ("observable_value", JStr "example.org"); ("x_opencti_score", JNum 0);
    ("x_opencti_description", JStr EmptyString) ].

Definition emotet_hit : Py.json :=
  edge_of [ ("id", JStr "malware--1"); ("entity_type", JStr "Malware");
            ("name", JStr "Emotet"); ("description", JStr "Banking trojan") ].

Definition resolver_hit : Py.json :=
  edge_of [ ("id", JStr "ipv4-addr--1"); ("entity_type", JStr "IPv4-Addr");
            ("observable_value", JStr "8.8.8.8") ].

Definition multiline_hit : Py.json :=
  edge_of [ ("id", JStr "malware--2"); ("entity_type", JStr "Malware");
            ("name", JStr "Qakbot");
            ("description", JStr ("Banking trojan." ++ nl ++ "Spread by mail.")) ].

Definition unnamed_indicator_node : list (string * Py.json) :=
  [ ("id", JStr "ipv4-addr--2"); ("entity_type", JStr "IPv4-Addr");
    ("observable_value", JStr "1.1.1.1");
    ("indicators", JObj [("edges", JArr [ edge_of [("pattern", JStr "[ipv4-addr:value = '1.1.1.1']")] ])]) ].

Definition undated_report_node : list (string * Py.json) :=
  [ ("id", JStr "ipv4-addr--3"); ("entity_type", JStr "IPv4-Addr");
    ("observable_value", JStr "9.9.9.9");
    ("reports", JObj [("edges", JArr [ edge_of [("name", JStr "Resolver survey")] ])]) ].

Definition bare_observable_node : list (string * Py.json) :=
  [ ("id", JStr "ipv4-addr--4"); ("entity_type", JStr "IPv4-Addr");
    ("observable_value", JStr "4.4.4.4") ].

Definition refusing (cause : string) : remote := fun _ => Failure cause.

Definition not_json (status : Z) (raw msg : string) : remote :=
  fun _ => Answer {| status_code := status; text := raw; json := Raise (JSONDecodeError msg) |}.

Definition both_labels_hit : Py.json :=
  edge_of [ ("id", JStr "x--1"); ("entity_type", JStr "Artifact");
            ("name", JStr EmptyString); ("observable_value", JStr "payload.bin");
            ("description", JNull) ].

Definition null_indicators_node : list (string * Py.json) :=
  [ ("id", JStr "ipv4-addr--5"); ("entity_type", JStr "IPv4-Addr");
    ("observable_value", JStr "5.5.5.5"); ("indicators", JNull) ].

Definition null_name_node : list (string * Py.json) :=
  [ ("id", JStr "ipv4-addr--6"); ("entity_type", JStr "IPv4-Addr");
    ("observable_value", JStr "6.6.6.6");
    ("indicators",
     JObj [("edges", JArr [ edge_of [("name", JStr "Known scanner")];
                            edge_of [("name", JNull)] ])]) ].

Definition null_score_node : list (string * Py.json) :=
  [ ("id", JStr "ipv4-addr--7"); ("entity_type", JStr "IPv4-Addr");
    ("observable_value", JStr "7.7.7.7"); ("x_opencti_score", JNull);
    ("x_opencti_description", JStr "Sinkhole") ].

Definition no_id_hit : Py.json :=
  edge_of [ ("entity_type", JStr "Report"); ("name", JStr "Q3 review") ].


Definition plain_malware_node : list (string * Py.json) :=
  [ ("id", JStr "malware--4"); ("entity_type", JStr "Malware"); ("name", JStr "Emotet");
    ("is_family", JBool true) ].

(** ** The executor *)

Section Executor.

Variable self : OpenCTIClient.
Variable net : remote.
Variable query : string.
Variable variables : Py.json.

Lemma execute_query_delivered (data : Py.json) :
  delivered (net (query_request self query variables)) = Some data ->
  execute_query self net query variables = Ok data.
Proof.
  unfold delivered, execute_query.
  destruct (net _) as [r | cause]; [ | discriminate ].
  unfold raise_for_status; cbn [post bind].
  destruct (is_success r); [ | discriminate ].
  destruct (json r) as [[ | | | | | body] | e]; try discriminate.
  cbn [bind contains_str get].
  destruct (lookup "errors" body); [ discriminate | ].
  intros H. rewrite H. reflexivity.
Qed.

Lemma execute_query_status (r : Response) :
  net (query_request self query variables) = Answer r ->
  is_success r = false ->
  execute_query self net query variables
  = Raise (ToolError ("Error de conexión con OpenCTI: " ++ str_int (status_code r))).
Proof.
  intros Hnet Hst. unfold execute_query. rewrite Hnet.
  unfold raise_for_status; cbn [post bind]. rewrite Hst. reflexivity.
Qed.

Lemma execute_query_errors (r : Response) (body : list (string * Py.json)) (errors : Py.json) :
  net (query_request self query variables) = Answer r ->
  is_success r = true ->
  json r = Ok (JObj body) ->
  lookup "errors" body = Some errors ->
  execute_query self net query variables
  = try_except
      (first <- getitem errors (KInt 0) ;;
       message <- getitem first (KStr "message") ;;
       Raise (ToolError ("Error GraphQL: " ++ str message)))
      on_exception.
Proof.
  intros Hnet Hst Hjson Herr. unfold execute_query. rewrite Hnet.
  unfold raise_for_status; cbn [post bind]. rewrite Hst. cbn [bind]. rewrite Hjson.
  cbn [bind contains_str getitem]. rewrite Herr. reflexivity.
Qed.

End Executor.

(** ** Text lemmas *)

Lemma prefix_app (n rest : string) : String.prefix n (n ++ rest) = true.
Proof.
  induction n as [ | c n IH]; simpl.
  - destruct rest; reflexivity.
  - destruct (ascii_dec c c) as [_ | Hne]; [ exact IH | contradiction ].
Qed.

Lemma contains_unfold (n hay : string) :
  contains n hay
  = (String.prefix n hay
     || match hay with EmptyString => false | String _ rest => contains n rest end)%bool.
Proof. destruct hay; reflexivity. Qed.

Lemma contains_intro (before n after : string) :
  contains n (before ++ n ++ after) = true.
Proof.
  induction before as [ | c before IH].
  - simpl. rewrite contains_unfold, prefix_app. reflexivity.
  - simpl. rewrite IH. apply orb_true_r.
Qed.

Lemma contains_suffix (before n : string) : contains n (before ++ n) = true.
Proof.
  replace (before ++ n) with (before ++ n ++ EmptyString).
  - apply contains_intro.
  - f_equal. induction n; simpl; congruence.
Qed.

Lemma prefix_app_l (n s t : string) :
  String.prefix n s = true -> String.prefix n (s ++ t) = true.
Proof.
  revert s. induction n as [ | c n IH]; intros s.
  { intros _. destruct (s ++ t); reflexivity. }
  destruct s as [ | d s]; simpl; [ discriminate | ].
  destruct (ascii_dec c d); [ apply IH | discriminate ].
Qed.

Lemma contains_app_l (n s t : string) :
  contains n s = true -> contains n (s ++ t) = true.
Proof.
  induction s as [ | c s IH].
  - rewrite contains_unfold, orb_false_r. intros H.
    rewrite contains_unfold. rewrite (prefix_app_l _ _ t H). reflexivity.
  - rewrite contains_unfold. intros H. apply orb_prop in H as [H | H].
    + rewrite contains_unfold, (prefix_app_l _ _ t H). reflexivity.
    + simpl append. rewrite contains_unfold, (IH H). apply orb_true_r.
Qed.

Lemma contains_app_r (n s t : string) :
  contains n t = true -> contains n (s ++ t) = true.
Proof.
  intros H. induction s as [ | c s IH]; [ exact H | ].
  simpl append. rewrite contains_unfold, IH. apply orb_true_r.
Qed.

Lemma contains_refl (n : string) : contains n n = true.
Proof. apply (contains_suffix EmptyString n). Qed.

(** *** Lines of a text *)

Lemma append_empty_r (s : string) : s ++ EmptyString = s.
Proof. induction s; simpl; congruence. Qed.

Lemma append_assoc (a b c : string) : (a ++ b) ++ c = a ++ b ++ c.
Proof. induction a; simpl; congruence. Qed.

Lemma split_lines_aux_app (s cur rest : string) :
  has_char newline s = false ->
  split_lines_aux cur (s ++ rest) = split_lines_aux (cur ++ s) rest.
Proof.
  revert cur. induction s as [ | c s IH]; intros cur H.
  - simpl. rewrite append_empty_r. reflexivity.
  - unfold has_char in H. cbn [list_ascii_of_string existsb] in H.
    apply orb_false_elim in H as [Hc Hs].
    simpl append. cbn [split_lines_aux].
    fold newline. rewrite Ascii.eqb_sym, Hc.
    rewrite (IH _ Hs), append_assoc. reflexivity.
Qed.

Lemma split_lines_aux_join (ls : list string) (l cur : string) :
  forallb (fun line => negb (has_char newline line)) (l :: ls) = true ->
  split_lines_aux cur (join nl (l :: ls)) = (cur ++ l) :: ls.
Proof.
  revert l cur. induction ls as [ | l2 ls IH]; intros l cur H;
    cbn [forallb] in H; apply andb_prop in H as [Hl Hls];
    apply negb_true_iff in Hl.
  - cbn [join]. rewrite <- (append_empty_r l) at 1.
    rewrite (split_lines_aux_app _ _ _ Hl). reflexivity.
  - change (join nl (l :: l2 :: ls)) with (l ++ nl ++ join nl (l2 :: ls)).
    rewrite (split_lines_aux_app _ _ _ Hl).
    unfold nl at 1. simpl append. cbn [split_lines_aux].
    rewrite Ascii.eqb_refl. rewrite (IH _ _ Hls). reflexivity.
Qed.

(** A text joined from lines without a newline splits back into them. *)
Lemma split_lines_join (ls : list string) :
  ls <> [] ->
  forallb (fun line => negb (has_char newline line)) ls = true ->
  split_lines (join nl ls) = ls.
Proof.
  destruct ls as [ | l ls]; [ congruence | ]. intros _ H.
  unfold split_lines. apply (split_lines_aux_join ls l EmptyString H).
Qed.





(** ** Running a tool call *)

Lemma index_head {A : Type} (x : A) (xs : list A) : index (x :: xs) 0 = Some x.
Proof.
  unfold index.
  replace (0 <? Z.of_nat (length (x :: xs))) with true; [ reflexivity | ].
  symmetry. apply Z.ltb_lt. simpl length. lia.
Qed.

(** Reading [data.get(root, {}).get("edges", [])] when the edge list is
    there. *)
Lemma edges_read {A : Type} (root : string) (data : Py.json) (es : list Py.json)
    (k : Py.json -> result A) :
  edges_at root data = Some es ->
  (found <- get data root (JObj []) ;; edges <- get found "edges" (JArr []) ;; k edges)
  = k (JArr es).
Proof.
  unfold edges_at.
  destruct data as [ | | | | | d]; try discriminate.
  cbn [get bind].
  destruct (lookup root d) as [[ | | | | | conn] | ]; try discriminate.
  cbn [get bind].
  destruct (lookup "edges" conn) as [[ | | | | es' | ] | ]; try discriminate.
  intros H; injection H as ->. reflexivity.
Qed.

(** A tool call starts with the executor on its own request. *)
Lemma call_tool_runs (client : OpenCTIClient) (net : remote) (c : tool_call) :
  exists (query : string) (variables : Py.json) (k : Py.json -> result string),
    request_of client c = query_request client query variables /\
    call_tool client net c = (data <- execute_query client net query variables ;; k data) /\
    forall (data : Py.json) (es : list Py.json),
      edges_at (root_of c) data = Some es ->
      k data
      = on_edges c es.
Proof.
  destruct c as [keyword limit | value | name]; cbn [request_of call_tool root_of].
  - unfold search_knowledge_base. do 3 eexists. split; [ reflexivity | ].
    split; [ reflexivity | ].
    intros data es H. cbv beta. rewrite (edges_read _ _ _ _ H).
    destruct es; reflexivity.
  - unfold get_observable_details. do 3 eexists. split; [ reflexivity | ].
    split; [ reflexivity | ].
    intros data es H. cbv beta. rewrite (edges_read _ _ _ _ H).
    destruct es; [ reflexivity | ].
    cbn [truthy negb getitem]. rewrite index_head. reflexivity.
  - unfold get_threat_entity. do 3 eexists. split; [ reflexivity | ].
    split; [ reflexivity | ].
    intros data es H. cbv beta. rewrite (edges_read _ _ _ _ H).
    destruct es; [ reflexivity | ].
    cbn [truthy negb getitem]. rewrite index_head. reflexivity.
Qed.

(** What a tool returns once the remote delivered a [data] mapping with an
    edge list under the tool's root. *)
Lemma call_tool_delivered (client : OpenCTIClient) (net : remote) (c : tool_call)
    (data : Py.json) (es : list Py.json) :
  delivered (net (request_of client c)) = Some data ->
  edges_at (root_of c) data = Some es ->
  call_tool client net c
  = on_edges c es.
Proof.
  intros Hd He.
  destruct (call_tool_runs client net c) as (query & variables & k & Hreq & Hrun & Hk).
  rewrite Hrun. rewrite Hreq in Hd.
  rewrite (execute_query_delivered _ _ _ _ _ Hd). cbn [bind].
  apply Hk. exact He.
Qed.

Lemma call_tool_status (client : OpenCTIClient) (net : remote) (c : tool_call) (r : Response) :
  net (request_of client c) = Answer r ->
  is_success r = false ->
  call_tool client net c
  = Raise (ToolError ("Error de conexión con OpenCTI: " ++ str_int (status_code r))).
Proof.
  intros Hnet Hst.
  destruct (call_tool_runs client net c) as (query & variables & k & Hreq & Hrun & _).
  rewrite Hrun. rewrite Hreq in Hnet.
  rewrite (execute_query_status _ _ _ _ _ Hnet Hst). reflexivity.
Qed.

(** ** The executor's failures *)

(** C1.  When the remote answers with a 2xx status and a JSON object whose
    [errors] member is a non-empty list, [execute_query] raises a ToolError
    and so returns no [data] mapping; when the first error has a [message]
    field, the ToolError's message is [Error interno: Error GraphQL: ]
    followed by that field, hence carries it. *)
Theorem execute_query_graphql_errors
    (self : OpenCTIClient) (net : remote) (query : string) (variables : Py.json)
    (r : Response) (body : list (string * Py.json)) (first : Py.json) (rest : list Py.json) :
  net (query_request self query variables) = Answer r ->
  is_success r = true ->
  json r = Ok (JObj body) ->
  lookup "errors" body = Some (JArr (first :: rest)) ->
  exists msg : string,
    execute_query self net query variables = Raise (ToolError msg) /\
    forall message : Py.json,
      getitem first (KStr "message") = Ok message ->
      msg = "Error interno: Error GraphQL: " ++ str message /\
      contains (str message) msg = true.
Proof.
  intros Hnet Hst Hjson Herr.
  rewrite (execute_query_errors _ _ _ _ _ _ _ Hnet Hst Hjson Herr).
  cbn [getitem]. rewrite index_head. cbn [bind].
  destruct (getitem first (KStr "message")) as [message | e] eqn:Hm.
  - eexists. split; [ reflexivity | ].
    intros message' H. injection H as <-. split; [ reflexivity | ].
    apply (contains_suffix "Error interno: Error GraphQL: ").
  - destruct e; (eexists; split; [ reflexivity | discriminate ]).
Qed.

Lemma execute_query_graphql_errors_witness :
  is_success {| status_code := 200; text := EmptyString; json := Ok graphql_error_body |} = true /\
  execute_query demo_client (answering 200 graphql_error_body) SEARCH_QUERY (JObj [])
  = Raise (ToolError "Error interno: Error GraphQL: Unknown field").
Proof.
  split; [ reflexivity | ].
  destruct (execute_query_graphql_errors demo_client (answering 200 graphql_error_body)
              SEARCH_QUERY (JObj []) _ _ _ _ eq_refl eq_refl eq_refl eq_refl)
    as (msg & Hrun & Hmsg).
  destruct (Hmsg (JStr "Unknown field") eq_refl) as [Heq _].
  rewrite Hrun, Heq. reflexivity.
Defined.

(** C9.  When the 2xx JSON body binds [errors] to an empty list,
    [execute_query] neither returns the [data] mapping nor raises the
    [Error GraphQL] message: the subscript [[0]] raises an IndexError, which
    the catch-all turns into a ToolError prefixed [Error interno:]. *)
Theorem execute_query_empty_errors
    (self : OpenCTIClient) (net : remote) (query : string) (variables : Py.json)
    (r : Response) (body : list (string * Py.json)) :
  net (query_request self query variables) = Answer r ->
  is_success r = true ->
  json r = Ok (JObj body) ->
  lookup "errors" body = Some (JArr []) ->
  execute_query self net query variables
  = Raise (ToolError ("Error interno: " ++ exn_str (IndexError "list index out of range"))).
Proof.
  intros Hnet Hst Hjson Herr.
  rewrite (execute_query_errors _ _ _ _ _ _ _ Hnet Hst Hjson Herr).
  reflexivity.
Qed.

Lemma execute_query_empty_errors_witness :
  lookup "errors" [("errors", JArr []); ("data", JObj [])] = Some (JArr []) /\
  execute_query demo_client (answering 200 (JObj [("errors", JArr []); ("data", JObj [])]))
    GET_ENTITY_QUERY (JObj [("name", JStr "APT28")])
  = Raise (ToolError "Error interno: list index out of range").
Proof.
  split; [ reflexivity | ].
  apply (execute_query_empty_errors demo_client
           (answering 200 (JObj [("errors", JArr []); ("data", JObj [])]))
           GET_ENTITY_QUERY (JObj [("name", JStr "APT28")]) _ _ eq_refl eq_refl eq_refl eq_refl).
Defined.

(** C6.  When the remote answers with a status outside 2xx, [execute_query]
    and with it each of the three tools raises a ToolError whose message is
    [Error de conexión con OpenCTI: ] followed by the status code; no text is
    returned. *)
Theorem non_success_status_fails (client : OpenCTIClient) (net : remote) (r : Response) :
  is_success r = false ->
  (forall (query : string) (variables : Py.json),
      net (query_request client query variables) = Answer r ->
      execute_query client net query variables
      = Raise (ToolError ("Error de conexión con OpenCTI: " ++ str_int (status_code r)))) /\
  (forall c : tool_call,
      net (request_of client c) = Answer r ->
      call_tool client net c
      = Raise (ToolError ("Error de conexión con OpenCTI: " ++ str_int (status_code r)))).
Proof.
  intros Hst. split.
  - intros query variables Hnet. apply execute_query_status; assumption.
  - intros c Hnet. apply call_tool_status; assumption.
Qed.

Lemma non_success_status_fails_witness :
  is_success {| status_code := 500; text := EmptyString; json := Ok (JObj []) |} = false /\
  call_tool demo_client (answering 500 (JObj [])) (CallObservable "8.8.8.8")
  = Raise (ToolError "Error de conexión con OpenCTI: 500").
Proof.
  split; [ reflexivity | ].
  apply (proj2 (non_success_status_fails demo_client (answering 500 (JObj []))
                  {| status_code := 500; text := EmptyString; json := Ok (JObj []) |} eq_refl)
           (CallObservable "8.8.8.8") eq_refl).
Defined.

(** ** Empty results *)

(** C4.  When the remote delivers a [data] mapping whose edge list under the
    tool's root is empty, each tool returns its no-results text (the ones of
    [get_observable_details] and [get_threat_entity] end with the queried
    value) and raises nothing. *)
Theorem empty_edges_sentinel
    (client : OpenCTIClient) (net : remote) (c : tool_call) (data : Py.json) :
  delivered (net (request_of client c)) = Some data ->
  edges_at (root_of c) data = Some [] ->
  call_tool client net c
  = Ok (match c with
        | CallSearch _ _ => "No se encontraron resultados."
        | CallObservable value => "No se encontró información para el observable: " ++ value
        | CallEntity name => "No se encontró la entidad: " ++ name
        end).
Proof.
  intros Hd He. rewrite (call_tool_delivered _ _ _ _ _ Hd He). reflexivity.
Qed.

Lemma empty_edges_sentinel_witness :
  edges_at "stixCyberObservables"
    (JObj [("stixCyberObservables", JObj [("edges", JArr [])])]) = Some [] /\
  call_tool demo_client (answering 200 (data_body "stixCyberObservables" []))
    (CallObservable "nonexistent")
  = Ok "No se encontró información para el observable: nonexistent".
Proof.
  split; [ reflexivity | ].
  apply (empty_edges_sentinel demo_client (answering 200 (data_body "stixCyberObservables" []))
           (CallObservable "nonexistent") _ eq_refl eq_refl).
Defined.

(** ** Reading one record *)

Lemma get_or_placeholder (nf : list (string * Py.json)) (f placeholder : string) :
  (a <- get (JObj nf) f JNull ;; or_else a (Ok (JStr placeholder)))
  = Ok (or_default (lookup f nf) placeholder).
Proof.
  cbn [get]. unfold or_default.
  destruct (lookup f nf) as [x | ]; cbn [bind]; unfold or_else.
  - destruct (truthy x); reflexivity.
  - reflexivity.
Qed.

Lemma get_field_or (nf : list (string * Py.json)) (f : string) (default : Py.json) :
  get (JObj nf) f default = Ok (field_or (lookup f nf) default).
Proof. cbn [get]. destruct (lookup f nf); reflexivity. Qed.

Lemma node_field_inv (f : string) (edge v : Py.json) :
  node_field f edge = Some v ->
  exists ef nf, edge = JObj ef /\ lookup "node" ef = Some (JObj nf) /\ lookup f nf = Some v.
Proof.
  unfold node_field.
  destruct edge as [ | | | | | ef]; try discriminate.
  destruct (lookup "node" ef) as [[ | | | | | nf] | ] eqn:Hn; try discriminate.
  intros H. exists ef, nf. auto.
Qed.

Lemma node_field_read (f : string) (edge v : Py.json) :
  node_field f edge = Some v ->
  (n <- getitem edge (KStr "node") ;; getitem n (KStr f)) = Ok v.
Proof.
  intros H. destruct (node_field_inv _ _ _ H) as (ef & nf & -> & Hn & Hf).
  cbn [getitem]. rewrite Hn. cbn [bind getitem]. rewrite Hf. reflexivity.
Qed.

Lemma relation_read {A : Type} (f : string) (nf : list (string * Py.json))
    (es : list Py.json) (k : list Py.json -> result A) :
  relation_edges f nf = Some es ->
  (conn <- get (JObj nf) f (JObj []) ;;
   edges <- get conn "edges" (JArr []) ;;
   items <- iter edges ;; k items)
  = k es.
Proof.
  unfold relation_edges. cbn [get].
  destruct (lookup f nf) as [[ | | | | | conn] | ]; try discriminate.
  - cbn [bind get].
    destruct (lookup "edges" conn) as [[ | | | | es' | ] | ]; try discriminate;
      intros H; injection H as <-; reflexivity.
  - intros H; injection H as <-. reflexivity.
Qed.

Lemma report_text_read (r name published : Py.json) :
  node_field "name" r = Some name ->
  node_field "published" r = Some published ->
  (n <- getitem r (KStr "node") ;;
   name <- getitem n (KStr "name") ;;
   n' <- getitem r (KStr "node") ;;
   published <- getitem n' (KStr "published") ;;
   Ok (str name ++ " (" ++ str published ++ ")"))
  = Ok (str name ++ " (" ++ str published ++ ")").
Proof.
  intros Hn Hp.
  destruct (node_field_inv _ _ _ Hn) as (ef & nf & -> & Hnode & Hname).
  unfold node_field in Hp. rewrite Hnode in Hp.
  cbn [getitem]. rewrite Hnode. cbn [bind getitem]. rewrite Hname, Hp. reflexivity.
Qed.

(** The six lines of [get_observable_details], once the two relations are
    read. *)
Lemma observable_output_lines (nf : list (string * Py.json)) (t v : Py.json)
    (indicators : list Py.json) (names reports : list string) :
  lookup "entity_type" nf = Some t ->
  lookup "observable_value" nf = Some v ->
  related_indicators (JObj nf) = Ok indicators ->
  strings_from 0 indicators = Ok names ->
  related_reports (JObj nf) = Ok reports ->
  observable_output (JObj nf)
  = Ok [ "Tipo: " ++ str t;
         "Valor: " ++ str v;
         "Score: " ++ str (or_default (lookup "x_opencti_score" nf) "N/A");
         "Descripción: " ++ str (or_default (lookup "x_opencti_description" nf) "N/A");
         "Indicadores asociados: " ++ match names with [] => "Ninguno" | _ => join ", " names end;
         "Mencionado en reportes: " ++ match reports with [] => "Ninguno" | _ => join ", " reports end ].
Proof.
  intros Ht Hv Hi Hs Hr. unfold observable_output.
  rewrite Hi, Hr. cbn [bind getitem]. rewrite Ht, Hv. cbn [bind].
  rewrite !get_or_placeholder. cbn [bind].
  assert (Hind : match indicators with
                 | [] => Ok "Ninguno"
                 | _ => join_values ", " indicators
                 end
                 = Ok match names with [] => "Ninguno" | _ => join ", " names end).
  { destruct indicators as [ | i rest].
    - cbn in Hs. injection Hs as <-. reflexivity.
    - unfold join_values. rewrite Hs. cbn [bind].
      destruct names as [ | n names']; [ | reflexivity ].
      cbn [strings_from] in Hs. destruct i; try discriminate.
      destruct (strings_from 1 rest); discriminate. }
  rewrite Hind. cbn [bind].
  destruct reports; reflexivity.
Qed.

(** The lines of [get_threat_entity]: four for every entity, two more for a
    threat actor, one more for a malware. *)
Lemma entity_output_lines (nf : list (string * Py.json)) (n t : Py.json) :
  lookup "name" nf = Some n ->
  lookup "entity_type" nf = Some t ->
  entity_output (JObj nf)
  = Ok (List.app
          [ "Nombre: " ++ str n;
            "Tipo: " ++ str t;
            "Descripción: " ++ str (or_default (lookup "description" nf) "N/A");
            "Creado: " ++ str (or_default (lookup "created" nf) "N/A") ]
          (List.app
             (if eq_str t "Threat-Actor"
              then [ "Tipos: " ++ str (field_or (lookup "threat_actor_types" nf) (JArr []));
                     "Objetivos: " ++ str (field_or (lookup "goals" nf) (JArr [])) ]
              else [])
             (if eq_str t "Malware"
              then [ "Familia de malware: "
                     ++ str (field_or (lookup "is_family" nf) (JBool false)) ]
              else []))).
Proof.
  intros Hn Ht. unfold entity_output.
  cbn [getitem]. rewrite Hn, Ht. cbn [bind].
  rewrite !get_or_placeholder. cbn [bind].
  rewrite !get_field_or.
  destruct (eq_str t "Threat-Actor"), (eq_str t "Malware"); reflexivity.
Qed.

(** *** Records with their required fields *)

Lemma present_inv (f : string) (nf : list (string * Py.json)) :
  present f nf = true -> exists v, lookup f nf = Some v.
Proof. unfold present. destruct (lookup f nf) as [v | ]; [ eauto | discriminate ]. Qed.

Lemma strings_from_strs (pos : nat) (ss : list string) :
  strings_from pos (map JStr ss) = Ok ss.
Proof.
  revert pos. induction ss as [ | s ss IH]; intros pos; cbn [map strings_from].
  - reflexivity.
  - rewrite IH. reflexivity.
Qed.

Lemma indicator_names_read (es : list Py.json) :
  forallb named_edge es = true ->
  for_each (fun i => n <- getitem i (KStr "node") ;; getitem n (KStr "name")) es
  = Ok (map JStr (map edge_name es)).
Proof.
  induction es as [ | e es IH]; cbn [forallb for_each map]; [ reflexivity | ].
  intros H. apply andb_prop in H as [He Hes].
  unfold named_edge in He. unfold edge_name.
  destruct (node_field "name" e) as [[ | | | s | | ] | ] eqn:Hn; try discriminate.
  rewrite (node_field_read _ _ _ Hn). cbn [bind]. rewrite (IH Hes). reflexivity.
Qed.

Lemma report_texts_read (es : list Py.json) :
  forallb report_edge es = true ->
  exists texts : list string,
    for_each (fun r => n <- getitem r (KStr "node") ;;
                       name <- getitem n (KStr "name") ;;
                       n' <- getitem r (KStr "node") ;;
                       published <- getitem n' (KStr "published") ;;
                       Ok (str name ++ " (" ++ str published ++ ")")) es
    = Ok texts /\ length texts = length es.
Proof.
  induction es as [ | e es IH]; cbn [forallb for_each].
  - exists []. split; reflexivity.
  - intros H. apply andb_prop in H as [He Hes].
    unfold report_edge in He.
    destruct (node_field "name" e) as [a | ] eqn:Ha; [ | discriminate ].
    destruct (node_field "published" e) as [b | ] eqn:Hb; [ | discriminate ].
    rewrite (report_text_read _ _ _ Ha Hb). cbn [bind].
    destruct (IH Hes) as (texts & -> & Hlen). cbn [bind].
    eexists. split; [ reflexivity | ]. cbn [length]. congruence.
Qed.

(** An observable record is formatted without raising. *)
Lemma observable_record_output (nf : list (string * Py.json)) :
  observable_record nf = true ->
  exists (t v : Py.json) (names reports : list string),
    lookup "entity_type" nf = Some t /\
    lookup "observable_value" nf = Some v /\
    (lookup "indicators" nf = None -> names = []) /\
    (lookup "reports" nf = None -> reports = []) /\
    observable_output (JObj nf)
    = Ok [ "Tipo: " ++ str t;
           "Valor: " ++ str v;
           "Score: " ++ str (or_default (lookup "x_opencti_score" nf) "N/A");
           "Descripción: " ++ str (or_default (lookup "x_opencti_description" nf) "N/A");
           "Indicadores asociados: " ++ match names with [] => "Ninguno" | _ => join ", " names end;
           "Mencionado en reportes: " ++ match reports with [] => "Ninguno" | _ => join ", " reports end ].
Proof.
  unfold observable_record. intros H.
  apply andb_prop in H as [H Hrep]. apply andb_prop in H as [H Hind].
  apply andb_prop in H as [Ht Hv].
  apply present_inv in Ht as [t Ht]. apply present_inv in Hv as [v Hv].
  destruct (relation_edges "indicators" nf) as [ies | ] eqn:Hie; [ | discriminate ].
  destruct (relation_edges "reports" nf) as [res | ] eqn:Hre; [ | discriminate ].
  destruct (report_texts_read res Hrep) as (texts & Htexts & Hlen).
  exists t, v, (map edge_name ies), texts.
  split; [ exact Ht | ]. split; [ exact Hv | ].
  split.
  { intros Habs. unfold relation_edges in Hie. rewrite Habs in Hie.
    injection Hie as <-. reflexivity. }
  split.
  { intros Habs. unfold relation_edges in Hre. rewrite Habs in Hre.
    injection Hre as <-. destruct texts; [ reflexivity | discriminate ]. }
  apply (observable_output_lines nf t v (map JStr (map edge_name ies))); auto.
  - unfold related_indicators. rewrite (relation_read _ _ _ _ Hie).
    apply indicator_names_read. exact Hind.
  - apply strings_from_strs.
  - unfold related_reports. rewrite (relation_read _ _ _ _ Hre). exact Htexts.
Qed.

Lemma report_texts_exact (es : list Py.json) :
  forallb report_edge es = true ->
  for_each (fun r => n <- getitem r (KStr "node") ;;
                     name <- getitem n (KStr "name") ;;
                     n' <- getitem r (KStr "node") ;;
                     published <- getitem n' (KStr "published") ;;
                     Ok (str name ++ " (" ++ str published ++ ")")) es
  = Ok (map report_text es).
Proof.
  induction es as [ | e es IH]; cbn [forallb for_each map]; [ reflexivity | ].
  intros H. apply andb_prop in H as [He Hes].
  unfold report_edge in He. unfold report_text.
  destruct (node_field "name" e) as [a | ] eqn:Ha; [ | discriminate ].
  destruct (node_field "published" e) as [b | ] eqn:Hb; [ | discriminate ].
  rewrite (report_text_read _ _ _ Ha Hb). cbn [bind]. rewrite (IH Hes). reflexivity.
Qed.

(** The entries of a well-formed observable node. *)
Lemma observable_output_text (nf : list (string * Py.json)) (t v : Py.json)
    (ies res : list Py.json) :
  lookup "entity_type" nf = Some t ->
  lookup "observable_value" nf = Some v ->
  relation_edges "indicators" nf = Some ies ->
  forallb named_edge ies = true ->
  relation_edges "reports" nf = Some res ->
  forallb report_edge res = true ->
  observable_output (JObj nf) = Ok (observable_lines nf t v ies res).
Proof.
  intros Ht Hv Hie Hind Hre Hrep.
  rewrite (observable_output_lines nf t v (map JStr (map edge_name ies))
             (map edge_name ies) (map report_text res) Ht Hv).
  - unfold observable_lines. destruct ies, res; reflexivity.
  - unfold related_indicators. rewrite (relation_read _ _ _ _ Hie).
    apply indicator_names_read. exact Hind.
  - apply strings_from_strs.
  - unfold related_reports. rewrite (relation_read _ _ _ _ Hre).
    apply report_texts_exact. exact Hrep.
Qed.

Lemma entity_output_text (nf : list (string * Py.json)) (n t : Py.json) :
  lookup "name" nf = Some n ->
  lookup "entity_type" nf = Some t ->
  entity_output (JObj nf) = Ok (entity_lines nf n t).
Proof. intros Hn Ht. apply (entity_output_lines nf n t Hn Ht). Qed.

(** ** Formatting the first record *)




(** C8.  When the first matching observable record has score 50, two
    indicators and one report, the text of [get_observable_details] contains
    [Score: 50], the two indicator names joined by a comma and a space, and
    the report as [name (published)]. *)
Theorem observable_details_score_indicators_report
    (client : OpenCTIClient) (net : remote) (value : string) (data first : Py.json)
    (rest : list Py.json) (nf : list (string * Py.json)) (t v i1 i2 r : Py.json)
    (n1 n2 : string) (rname rpublished : Py.json) :
  delivered (net (request_of client (CallObservable value))) = Some data ->
  edges_at "stixCyberObservables" data = Some (first :: rest) ->
  getitem first (KStr "node") = Ok (JObj nf) ->
  lookup "entity_type" nf = Some t ->
  lookup "observable_value" nf = Some v ->
  lookup "x_opencti_score" nf = Some (JNum 50) ->
  relation_edges "indicators" nf = Some [i1; i2] ->
  node_field "name" i1 = Some (JStr n1) ->
  node_field "name" i2 = Some (JStr n2) ->
  relation_edges "reports" nf = Some [r] ->
  node_field "name" r = Some rname ->
  node_field "published" r = Some rpublished ->
  exists text : string,
    get_observable_details client net value = Ok text /\
    contains "Score: 50" text = true /\
    contains (n1 ++ ", " ++ n2) text = true /\
    contains (str rname ++ " (" ++ str rpublished ++ ")") text = true.
Proof.
  intros Hd He Hnode Ht Hv Hs Hie Hn1 Hn2 Hre Hrn Hrp.
  pose proof (call_tool_delivered client net (CallObservable value) data _ Hd He) as Hrun.
  cbn [call_tool on_edges] in Hrun. rewrite Hrun, Hnode. cbn [bind].
  rewrite (observable_output_lines nf t v [JStr n1; JStr n2] [n1; n2]
             [str rname ++ " (" ++ str rpublished ++ ")"] Ht Hv).
  - rewrite Hs. cbn [bind join or_default truthy]. eexists. split; [ reflexivity | ].
    repeat split.
    + do 4 apply contains_app_r. apply contains_app_l. reflexivity.
    + do 8 apply contains_app_r. apply contains_app_l. apply contains_app_r.
      apply contains_refl.
    + do 10 apply contains_app_r. apply contains_app_r. apply contains_refl.
  - unfold related_indicators. rewrite (relation_read _ _ _ _ Hie).
    cbn [for_each]. rewrite (node_field_read _ _ _ Hn1), (node_field_read _ _ _ Hn2).
    reflexivity.
  - reflexivity.
  - unfold related_reports. rewrite (relation_read _ _ _ _ Hre).
    cbn [for_each]. rewrite (report_text_read _ _ _ Hrn Hrp). reflexivity.
Qed.

Lemma observable_details_score_indicators_report_witness :
  lookup "x_opencti_score" dns_node = Some (JNum 50) /\
  exists text : string,
    get_observable_details demo_client
      (answering 200 (data_body "stixCyberObservables" [edge_of dns_node])) "8.8.8.8"
    = Ok text /\
    contains "Score: 50" text = true /\
    contains ("Google DNS" ++ ", " ++ "Public resolver") text = true /\
    contains (str (JStr "DNS abuse") ++ " (" ++ str (JStr "2024-01-01") ++ ")") text = true.
Proof.
  split; [ reflexivity | ].
  apply (observable_details_score_indicators_report demo_client
           (answering 200 (data_body "stixCyberObservables" [edge_of dns_node])) "8.8.8.8"
           _ _ _ dns_node _ _ _ _ _ _ _ _ _
           eq_refl eq_refl eq_refl eq_refl eq_refl eq_refl
           eq_refl eq_refl eq_refl eq_refl eq_refl eq_refl).
Defined.

(** C10.  For the first matching observable record, a score that is present
    and equal to 0 is printed as [Score: N/A], and a description that is
    present and empty as [Descripción: N/A]: the fallback tests the value,
    not the presence of the key. *)
Theorem observable_details_falsy_fields
    (client : OpenCTIClient) (net : remote) (value : string) (data first : Py.json)
    (rest : list Py.json) (nf : list (string * Py.json)) :
  delivered (net (request_of client (CallObservable value))) = Some data ->
  edges_at "stixCyberObservables" data = Some (first :: rest) ->
  getitem first (KStr "node") = Ok (JObj nf) ->
  observable_record nf = true ->
  exists output : list string,
    observable_output (JObj nf) = Ok output /\
    get_observable_details client net value = Ok (join nl output) /\
    (lookup "x_opencti_score" nf = Some (JNum 0) ->
     nth_error output 2 = Some "Score: N/A") /\
    (lookup "x_opencti_description" nf = Some (JStr EmptyString) ->
     nth_error output 3 = Some "Descripción: N/A").
Proof.
  intros Hd He Hnode Hrec.
  pose proof (call_tool_delivered client net (CallObservable value) data _ Hd He) as Hrun.
  cbn [call_tool on_edges] in Hrun. rewrite Hrun, Hnode. cbn [bind].
  destruct (observable_record_output nf Hrec)
    as (t & v & names & reports & _ & _ & _ & _ & Hout).
  rewrite Hout. cbn [bind]. eexists. split; [ reflexivity | ]. split; [ reflexivity | ].
  split; intros H; rewrite H; reflexivity.
Qed.

Lemma observable_details_falsy_fields_witness :
  observable_record unscored_node = true /\
  exists output : list string,
    observable_output (JObj unscored_node) = Ok output /\
    get_observable_details demo_client
      (answering 200 (data_body "stixCyberObservables" [edge_of unscored_node])) "example.org"
    = Ok (join nl output) /\
    (lookup "x_opencti_score" unscored_node = Some (JNum 0) ->
     nth_error output 2 = Some "Score: N/A") /\
    (lookup "x_opencti_description" unscored_node = Some (JStr EmptyString) ->
     nth_error output 3 = Some "Descripción: N/A").
Proof.
  split; [ reflexivity | ].
  apply (observable_details_falsy_fields demo_client
           (answering 200 (data_body "stixCyberObservables" [edge_of unscored_node]))
           "example.org" _ _ _ unscored_node eq_refl eq_refl eq_refl eq_refl).
Defined.

(** ** Every record of a search *)

Lemma get_or_placeholder2 (nf : list (string * Py.json)) (f g placeholder : string) :
  (a <- get (JObj nf) f JNull ;;
   or_else a (b <- get (JObj nf) g JNull ;; or_else b (Ok (JStr placeholder))))
  = Ok (or_default2 (lookup f nf) (lookup g nf) placeholder).
Proof.
  rewrite get_or_placeholder. cbn [get]. unfold or_default2.
  destruct (lookup f nf) as [x | ]; cbn [bind]; unfold or_else.
  - destruct (truthy x); reflexivity.
  - reflexivity.
Qed.

(** The entry of a search edge that has its type tag and identifier. *)
Lemma search_entry_hit (edge t id : Py.json) :
  node_field "entity_type" edge = Some t ->
  node_field "id" edge = Some id ->
  exists name desc : string,
    search_entry edge
    = Ok ("- [" ++ str t ++ "] " ++ name ++ " (ID: " ++ str id ++ "): " ++ desc) /\
    (node_field "name" edge = None -> node_field "observable_value" edge = None ->
     name = "Desconocido") /\
    (node_field "description" edge = None -> node_field "x_opencti_description" edge = None ->
     desc = "Sin descripción").
Proof.
  intros Ht Hid.
  destruct (node_field_inv _ _ _ Ht) as (ef & nf & -> & Hnode & Htype).
  unfold node_field in *. rewrite Hnode in *.
  unfold search_entry. cbn [getitem]. rewrite Hnode. cbn [bind].
  rewrite !get_or_placeholder2. cbn [bind getitem]. rewrite Htype, Hid. cbn [bind].
  do 2 eexists. split; [ reflexivity | ].
  split; intros -> ->; reflexivity.
Qed.

Lemma hit_record_inv (edge : Py.json) :
  hit_record edge = true ->
  exists t id, node_field "entity_type" edge = Some t /\ node_field "id" edge = Some id.
Proof.
  unfold hit_record.
  destruct (node_field "entity_type" edge) as [t | ]; [ | discriminate ].
  destruct (node_field "id" edge) as [id | ]; [ | discriminate ].
  eauto.
Qed.

(** A loop whose body succeeds on every item yields one value per item. *)
Lemma for_each_total {A B : Type} (body : A -> result B) (xs : list A) :
  (forall x, In x xs -> exists y, body x = Ok y) ->
  exists ys, for_each body xs = Ok ys /\ Forall2 (fun x y => body x = Ok y) xs ys.
Proof.
  induction xs as [ | x xs IH]; intros H; cbn [for_each].
  - exists []. split; [ reflexivity | constructor ].
  - destruct (H x (or_introl eq_refl)) as [y Hy].
    destruct IH as (ys & Hys & Hall); [ intros z Hz; apply H; right; exact Hz | ].
    exists (y :: ys). rewrite Hy, Hys. split; [ reflexivity | ].
    constructor; assumption.
Qed.

Lemma Forall2_nth_error_l {A B : Type} (R : A -> B -> Prop) (xs : list A) (ys : list B) :
  Forall2 R xs ys ->
  forall (i : nat) (x : A), nth_error xs i = Some x ->
    exists y, nth_error ys i = Some y /\ R x y.
Proof.
  induction 1 as [ | x0 y0 xs ys Hxy _ IH]; intros i x Hi.
  - destruct i; discriminate.
  - destruct i as [ | i]; cbn [nth_error] in *.
    + injection Hi as <-. eauto.
    + apply IH. exact Hi.
Qed.

Lemma search_entry_text (edge t id : Py.json) :
  node_field "entity_type" edge = Some t ->
  node_field "id" edge = Some id ->
  search_entry edge
  = Ok ("- [" ++ str t ++ "] "
        ++ str (or_default2 (node_field "name" edge) (node_field "observable_value" edge)
                  "Desconocido")
        ++ " (ID: " ++ str id ++ "): "
        ++ str (or_default2 (node_field "description" edge)
                  (node_field "x_opencti_description" edge) "Sin descripción")).
Proof.
  intros Ht Hid.
  destruct (node_field_inv _ _ _ Ht) as (ef & nf & -> & Hnode & Htype).
  unfold node_field in *. rewrite Hnode in *.
  unfold search_entry. cbn [getitem]. rewrite Hnode. cbn [bind].
  rewrite !get_or_placeholder2. cbn [bind getitem]. rewrite Htype, Hid. reflexivity.
Qed.

Lemma search_entries_exact (es : list Py.json) :
  forallb hit_record es = true ->
  for_each search_entry es = Ok (map entry_text es).
Proof.
  induction es as [ | e es IH]; cbn [forallb for_each map]; [ reflexivity | ].
  intros H. apply andb_prop in H as [He Hes].
  destruct (hit_record_inv e He) as (t & id & Ht & Hid).
  rewrite (search_entry_text e t id Ht Hid). cbn [bind]. rewrite (IH Hes). cbn [bind].
  unfold entry_text. rewrite Ht, Hid. reflexivity.
Qed.

Lemma search_entries (es : list Py.json) :
  forallb hit_record es = true ->
  exists results : list string,
    for_each search_entry es = Ok results /\
    Forall2 (fun e line => search_entry e = Ok line) es results.
Proof.
  intros H. apply for_each_total. intros e He.
  rewrite forallb_forall in H. destruct (hit_record_inv e (H e He)) as (t & id & Ht & Hid).
  destruct (search_entry_hit e t id Ht Hid) as (name & desc & Hrun & _).
  eauto.
Qed.

(** C5, as stated, fails in its last part: of two matching records, one with
    a two-line description, [search_knowledge_base] makes a text of three
    lines, so not every record is formatted as one line. *)
Lemma search_record_per_line_counterexample :
  exists text : string,
    search_knowledge_base demo_client
      (answering 200 (data_body "globalSearch" [multiline_hit; emotet_hit])) "trojan" 10
    = Ok text /\
    length (split_lines text) = 3%nat /\
    length (split_lines text) <> length [multiline_hit; emotet_hit].
Proof.
  eexists. split; [ reflexivity | ]. split; [ reflexivity | ].
  vm_compute. discriminate.
Qed.

(** C5, amended.  With one or more matching records:
    [get_observable_details] returns the six entries of the first record,
    joined by newlines, when that record is well formed (it has its
    [entity_type] and [observable_value]; each of [indicators] and [reports],
    when present, is a dict whose [edges], when present, is a list of edges,
    each indicator edge with a str [name], each report edge with a [name] and
    a [published]); [get_threat_entity] returns the entries of the first
    record, joined by newlines, when that record has its [name] and
    [entity_type]; for both, whatever follows the first record changes
    nothing, also when the first record is ill formed.
    [search_knowledge_base] returns one entry per record, in order, joined by
    newlines, when every record has its [entity_type] and [id]; these entries
    are the lines of the text when none of them holds a newline. *)
Theorem first_record_only_and_every_hit (client : OpenCTIClient) :
  (forall (net : remote) (value : string) (data first : Py.json) (rest : list Py.json)
          (nf : list (string * Py.json)) (t v : Py.json) (ies res : list Py.json),
      delivered (net (request_of client (CallObservable value))) = Some data ->
      edges_at "stixCyberObservables" data = Some (first :: rest) ->
      getitem first (KStr "node") = Ok (JObj nf) ->
      lookup "entity_type" nf = Some t ->
      lookup "observable_value" nf = Some v ->
      relation_edges "indicators" nf = Some ies ->
      forallb named_edge ies = true ->
      relation_edges "reports" nf = Some res ->
      forallb report_edge res = true ->
      get_observable_details client net value
      = Ok (join nl (observable_lines nf t v ies res))) /\
  (forall (net : remote) (name : string) (data first : Py.json) (rest : list Py.json)
          (nf : list (string * Py.json)) (n t : Py.json),
      delivered (net (request_of client (CallEntity name))) = Some data ->
      edges_at "stixDomainObjects" data = Some (first :: rest) ->
      getitem first (KStr "node") = Ok (JObj nf) ->
      lookup "name" nf = Some n ->
      lookup "entity_type" nf = Some t ->
      get_threat_entity client net name = Ok (join nl (entity_lines nf n t))) /\
  (forall (net1 net2 : remote) (value : string) (data1 data2 first : Py.json)
          (rest1 rest2 : list Py.json),
      delivered (net1 (request_of client (CallObservable value))) = Some data1 ->
      edges_at "stixCyberObservables" data1 = Some (first :: rest1) ->
      delivered (net2 (request_of client (CallObservable value))) = Some data2 ->
      edges_at "stixCyberObservables" data2 = Some (first :: rest2) ->
      get_observable_details client net1 value = get_observable_details client net2 value) /\
  (forall (net1 net2 : remote) (name : string) (data1 data2 first : Py.json)
          (rest1 rest2 : list Py.json),
      delivered (net1 (request_of client (CallEntity name))) = Some data1 ->
      edges_at "stixDomainObjects" data1 = Some (first :: rest1) ->
      delivered (net2 (request_of client (CallEntity name))) = Some data2 ->
      edges_at "stixDomainObjects" data2 = Some (first :: rest2) ->
      get_threat_entity client net1 name = get_threat_entity client net2 name) /\
  (forall (net : remote) (keyword : string) (limit : Z) (data : Py.json) (es : list Py.json),
      delivered (net (request_of client (CallSearch keyword (Some limit)))) = Some data ->
      edges_at "globalSearch" data = Some es ->
      es <> [] ->
      forallb hit_record es = true ->
      search_knowledge_base client net keyword limit = Ok (join nl (map entry_text es)) /\
      (forallb (fun line => negb (has_char newline line)) (map entry_text es) = true ->
       split_lines (join nl (map entry_text es)) = map entry_text es)).
Proof.
  split; [ | split; [ | split; [ | split ] ] ].
  - intros net value data first rest nf t v ies res Hd He Hnode Ht Hv Hie Hind Hre Hrep.
    pose proof (call_tool_delivered client net (CallObservable value) _ _ Hd He) as H.
    cbn [call_tool on_edges] in H. rewrite H, Hnode. cbn [bind].
    rewrite (observable_output_text nf t v ies res Ht Hv Hie Hind Hre Hrep). reflexivity.
  - intros net name data first rest nf n t Hd He Hnode Hn Ht.
    pose proof (call_tool_delivered client net (CallEntity name) _ _ Hd He) as H.
    cbn [call_tool on_edges] in H. rewrite H, Hnode. cbn [bind].
    rewrite (entity_output_text nf n t Hn Ht). reflexivity.
  - intros net1 net2 value data1 data2 first rest1 rest2 Hd1 He1 Hd2 He2.
    pose proof (call_tool_delivered client net1 (CallObservable value) _ _ Hd1 He1) as H1.
    pose proof (call_tool_delivered client net2 (CallObservable value) _ _ Hd2 He2) as H2.
    cbn [call_tool on_edges] in H1, H2. congruence.
  - intros net1 net2 name data1 data2 first rest1 rest2 Hd1 He1 Hd2 He2.
    pose proof (call_tool_delivered client net1 (CallEntity name) _ _ Hd1 He1) as H1.
    pose proof (call_tool_delivered client net2 (CallEntity name) _ _ Hd2 He2) as H2.
    cbn [call_tool on_edges] in H1, H2. congruence.
  - intros net keyword limit data es Hd He Hne Hhits.
    pose proof (call_tool_delivered client net (CallSearch keyword (Some limit)) _ _ Hd He) as H.
    cbn [call_tool] in H. rewrite H. unfold on_edges.
    destruct es as [ | e es']; [ congruence | ].
    rewrite (search_entries_exact _ Hhits). cbn [bind].
    split; [ reflexivity | ].
    apply split_lines_join. discriminate.
Qed.

Lemma first_record_only_and_every_hit_witness :
  forallb named_edge
    [ edge_of [("name", JStr "Google DNS"); ("pattern", JStr "p1")];
      edge_of [("name", JStr "Public resolver"); ("pattern", JStr "p2")] ] = true /\
  get_observable_details demo_client
    (answering 200 (data_body "stixCyberObservables" [edge_of dns_node; edge_of unscored_node]))
    "8.8.8.8"
  = Ok (join nl [ "Tipo: IPv4-Addr"; "Valor: 8.8.8.8"; "Score: 50"; "Descripción: N/A";
                  "Indicadores asociados: Google DNS, Public resolver";
                  "Mencionado en reportes: DNS abuse (2024-01-01)" ]).
Proof.
  split; [ reflexivity | ].
  exact (proj1 (first_record_only_and_every_hit demo_client)
           (answering 200 (data_body "stixCyberObservables" [edge_of dns_node; edge_of unscored_node]))
           "8.8.8.8" _ (edge_of dns_node) _ dns_node (JStr "IPv4-Addr") (JStr "8.8.8.8")
           [ edge_of [("name", JStr "Google DNS"); ("pattern", JStr "p1")];
             edge_of [("name", JStr "Public resolver"); ("pattern", JStr "p2")] ]
           [ edge_of [("name", JStr "DNS abuse"); ("published", JStr "2024-01-01")] ]
           eq_refl eq_refl eq_refl eq_refl eq_refl eq_refl eq_refl eq_refl eq_refl).
Defined.

(** C3, as stated, fails: one matching record whose description holds a
    newline gives a text of two newline-separated lines. *)
Lemma search_lines_counterexample :
  exists text : string,
    search_knowledge_base demo_client
      (answering 200 (data_body "globalSearch" [multiline_hit])) "qakbot" 10 = Ok text /\
    length (split_lines text) = 2%nat /\
    length (split_lines text) <> length [multiline_hit].
Proof.
  eexists. split; [ reflexivity | ]. split; [ reflexivity | ].
  vm_compute. discriminate.
Qed.

(** C3, amended.  With N >= 1 matching records, each with its [entity_type]
    and [id], [search_knowledge_base] returns N entries joined by newlines,
    the i-th of which contains the i-th record's [entity_type] and [id] as
    they are; when no entry holds a newline, the text has exactly these N
    entries as its newline-separated lines. *)
Theorem search_entry_per_record
    (client : OpenCTIClient) (net : remote) (keyword : string) (limit : Z)
    (data : Py.json) (es : list Py.json) :
  delivered (net (request_of client (CallSearch keyword (Some limit)))) = Some data ->
  edges_at "globalSearch" data = Some es ->
  es <> [] ->
  forallb hit_record es = true ->
  exists results : list string,
    for_each search_entry es = Ok results /\
    search_knowledge_base client net keyword limit = Ok (join nl results) /\
    length results = length es /\
    (forall (i : nat) (e t id : Py.json),
        nth_error es i = Some e ->
        node_field "entity_type" e = Some t ->
        node_field "id" e = Some id ->
        exists line : string,
          nth_error results i = Some line /\
          contains (str t) line = true /\
          contains (str id) line = true) /\
    (forallb (fun line => negb (has_char newline line)) results = true ->
     split_lines (join nl results) = results).
Proof.
  intros Hd He Hne Hhits.
  pose proof (call_tool_delivered client net (CallSearch keyword (Some limit)) _ _ Hd He) as H.
  cbn [call_tool] in H. rewrite H. unfold on_edges.
  destruct es as [ | e0 es']; [ congruence | ].
  destruct (search_entries _ Hhits) as (results & Hrun & Hall).
  rewrite Hrun. cbn [bind]. exists results.
  split; [ reflexivity | ]. split; [ reflexivity | ].
  split; [ symmetry; apply (Forall2_length Hall) | ].
  split.
  - intros i e t id Hi Ht Hid.
    destruct (Forall2_nth_error_l _ _ _ Hall i e Hi) as (line & Hline & Hentry).
    destruct (search_entry_hit e t id Ht Hid) as (name & desc & Hrun' & _).
    assert (Heq : line = "- [" ++ str t ++ "] " ++ name ++ " (ID: " ++ str id ++ "): " ++ desc)
      by congruence.
    exists line. split; [ exact Hline | ]. rewrite Heq. split.
    + apply contains_app_r. apply contains_app_l. apply contains_refl.
    + do 5 apply contains_app_r. apply contains_app_l. apply contains_refl.
  - apply split_lines_join.
    intros ->. inversion Hall.
Qed.

Lemma search_entry_per_record_witness :
  forallb hit_record [emotet_hit; resolver_hit] = true /\
  exists results : list string,
    for_each search_entry [emotet_hit; resolver_hit] = Ok results /\
    search_knowledge_base demo_client
      (answering 200 (data_body "globalSearch" [emotet_hit; resolver_hit])) "e" 10
    = Ok (join nl results) /\
    length results = length [emotet_hit; resolver_hit] /\
    (forall (i : nat) (e t id : Py.json),
        nth_error [emotet_hit; resolver_hit] i = Some e ->
        node_field "entity_type" e = Some t ->
        node_field "id" e = Some id ->
        exists line : string,
          nth_error results i = Some line /\
          contains (str t) line = true /\
          contains (str id) line = true) /\
    (forallb (fun line => negb (has_char newline line)) results = true ->
     split_lines (join nl results) = results).
Proof.
  split; [ reflexivity | ].
  apply (search_entry_per_record demo_client
           (answering 200 (data_body "globalSearch" [emotet_hit; resolver_hit])) "e" 10
           _ _ eq_refl eq_refl).
  - discriminate.
  - reflexivity.
Defined.

(** ** Absent fields *)

(** C2, as stated, fails: an indicator edge without [name], or a report edge
    without [published], makes [get_observable_details] raise a KeyError. *)
Lemma missing_edge_field_counterexample :
  get_observable_details demo_client
    (answering 200 (data_body "stixCyberObservables" [edge_of unnamed_indicator_node]))
    "1.1.1.1"
  = Raise (KeyError (KStr "name")) /\
  get_observable_details demo_client
    (answering 200 (data_body "stixCyberObservables" [edge_of undated_report_node]))
    "9.9.9.9"
  = Raise (KeyError (KStr "published")).
Proof. split; reflexivity. Qed.

(** C2, amended.  For a non-empty response whose records are well formed (a
    search hit has its [entity_type] and [id]; an observable has its
    [entity_type] and [observable_value], and each of [indicators] and
    [reports], when present, is a dict whose [edges], when present, is a list
    of edges, each indicator edge with a str [name], each report edge with a
    [name] and a [published]; an entity has its [name] and [entity_type]),
    each handler returns a text and prints a fixed placeholder for every
    absent optional field: [Desconocido] and
    [Sin descripción] in a search entry, [N/A] for score, description and
    creation date, [Ninguno] for indicators and reports, [[]] for the types
    and goals of a threat actor and [False] for the family flag of a
    malware. *)
Theorem absent_optional_fields_placeholders (client : OpenCTIClient) (net : remote) :
  (forall (keyword : string) (limit : Z) (data : Py.json) (es : list Py.json),
      delivered (net (request_of client (CallSearch keyword (Some limit)))) = Some data ->
      edges_at "globalSearch" data = Some es ->
      es <> [] ->
      forallb hit_record es = true ->
      exists results : list string,
        for_each search_entry es = Ok results /\
        search_knowledge_base client net keyword limit = Ok (join nl results) /\
        forall (i : nat) (e : Py.json),
          nth_error es i = Some e ->
          exists (t id : Py.json) (name desc : string),
            node_field "entity_type" e = Some t /\
            node_field "id" e = Some id /\
            nth_error results i
            = Some ("- [" ++ str t ++ "] " ++ name ++ " (ID: " ++ str id ++ "): " ++ desc) /\
            (node_field "name" e = None -> node_field "observable_value" e = None ->
             name = "Desconocido") /\
            (node_field "description" e = None ->
             node_field "x_opencti_description" e = None ->
             desc = "Sin descripción")) /\
  (forall (value : string) (data first : Py.json) (rest : list Py.json)
          (nf : list (string * Py.json)),
      delivered (net (request_of client (CallObservable value))) = Some data ->
      edges_at "stixCyberObservables" data = Some (first :: rest) ->
      getitem first (KStr "node") = Ok (JObj nf) ->
      observable_record nf = true ->
      exists output : list string,
        observable_output (JObj nf) = Ok output /\
        get_observable_details client net value = Ok (join nl output) /\
        (lookup "x_opencti_score" nf = None -> nth_error output 2 = Some "Score: N/A") /\
        (lookup "x_opencti_description" nf = None ->
         nth_error output 3 = Some "Descripción: N/A") /\
        (lookup "indicators" nf = None ->
         nth_error output 4 = Some "Indicadores asociados: Ninguno") /\
        (lookup "reports" nf = None ->
         nth_error output 5 = Some "Mencionado en reportes: Ninguno")) /\
  (forall (name : string) (data first : Py.json) (rest : list Py.json)
          (nf : list (string * Py.json)),
      delivered (net (request_of client (CallEntity name))) = Some data ->
      edges_at "stixDomainObjects" data = Some (first :: rest) ->
      getitem first (KStr "node") = Ok (JObj nf) ->
      entity_record nf = true ->
      exists output : list string,
        entity_output (JObj nf) = Ok output /\
        get_threat_entity client net name = Ok (join nl output) /\
        (lookup "description" nf = None -> nth_error output 2 = Some "Descripción: N/A") /\
        (lookup "created" nf = None -> nth_error output 3 = Some "Creado: N/A") /\
        (lookup "entity_type" nf = Some (JStr "Threat-Actor") ->
         (lookup "threat_actor_types" nf = None -> nth_error output 4 = Some "Tipos: []") /\
         (lookup "goals" nf = None -> nth_error output 5 = Some "Objetivos: []")) /\
        (lookup "entity_type" nf = Some (JStr "Malware") ->
         lookup "is_family" nf = None ->
         nth_error output 4 = Some "Familia de malware: False")).
Proof.
  split; [ | split ].
  - intros keyword limit data es Hd He Hne Hhits.
    pose proof (call_tool_delivered client net (CallSearch keyword (Some limit)) _ _ Hd He) as H.
    cbn [call_tool] in H. rewrite H. unfold on_edges.
    destruct es as [ | e0 es']; [ congruence | ].
    destruct (search_entries _ Hhits) as (results & Hrun & Hall).
    rewrite Hrun. cbn [bind]. exists results.
    split; [ reflexivity | ]. split; [ reflexivity | ].
    intros i e Hi.
    destruct (Forall2_nth_error_l _ _ _ Hall i e Hi) as (line & Hline & Hentry).
    rewrite forallb_forall in Hhits.
    destruct (hit_record_inv e (Hhits e (nth_error_In _ _ Hi))) as (t & id & Ht & Hid).
    destruct (search_entry_hit e t id Ht Hid) as (name & desc & Hrun' & Hname & Hdesc).
    exists t, id, name, desc.
    repeat (split; [ assumption | ]).
    split; [ | split; assumption ].
    rewrite Hline. congruence.
  - intros value data first rest nf Hd He Hnode Hrec.
    pose proof (call_tool_delivered client net (CallObservable value) data _ Hd He) as Hrun.
    cbn [call_tool on_edges] in Hrun. rewrite Hrun, Hnode. cbn [bind].
    destruct (observable_record_output nf Hrec)
      as (t & v & names & reports & _ & _ & Hnames & Hreports & Hout).
    rewrite Hout. cbn [bind]. eexists. split; [ reflexivity | ]. split; [ reflexivity | ].
    repeat split; intros H.
    + rewrite H. reflexivity.
    + rewrite H. reflexivity.
    + rewrite (Hnames H). reflexivity.
    + rewrite (Hreports H). reflexivity.
  - intros name data first rest nf Hd He Hnode Hrec.
    pose proof (call_tool_delivered client net (CallEntity name) data _ Hd He) as Hrun.
    cbn [call_tool on_edges] in Hrun. rewrite Hrun, Hnode. cbn [bind].
    unfold entity_record in Hrec. apply andb_prop in Hrec as [Hn Ht].
    apply present_inv in Hn as [n Hn]. apply present_inv in Ht as [t Ht].
    rewrite (entity_output_lines nf n t Hn Ht). cbn [bind].
    eexists. split; [ reflexivity | ]. split; [ reflexivity | ].
    split; [ intros H; rewrite H; reflexivity | ].
    split; [ intros H; rewrite H; reflexivity | ].
    split.
    + intros Hta. assert (t = JStr "Threat-Actor") as -> by congruence.
      split; intros H; rewrite H; reflexivity.
    + intros Hm H. assert (t = JStr "Malware") as -> by congruence.
      rewrite H. reflexivity.
Qed.

Lemma absent_optional_fields_placeholders_witness :
  observable_record bare_observable_node = true /\
  exists output : list string,
    observable_output (JObj bare_observable_node) = Ok output /\
    get_observable_details demo_client
      (answering 200 (data_body "stixCyberObservables" [edge_of bare_observable_node]))
      "4.4.4.4"
    = Ok (join nl output) /\
    (lookup "x_opencti_score" bare_observable_node = None ->
     nth_error output 2 = Some "Score: N/A") /\
    (lookup "x_opencti_description" bare_observable_node = None ->
     nth_error output 3 = Some "Descripción: N/A") /\
    (lookup "indicators" bare_observable_node = None ->
     nth_error output 4 = Some "Indicadores asociados: Ninguno") /\
    (lookup "reports" bare_observable_node = None ->
     nth_error output 5 = Some "Mencionado en reportes: Ninguno").
Proof.
  split; [ reflexivity | ].
  apply (proj1 (proj2 (absent_optional_fields_placeholders demo_client
           (answering 200 (data_body "stixCyberObservables" [edge_of bare_observable_node]))))
           "4.4.4.4" _ _ _ bare_observable_node eq_refl eq_refl eq_refl eq_refl).
Defined.

(** * The rest of the module *)

(** ** The executor, case by case *)

Lemma on_exception_tool_error (e : exn) :
  exists msg : string, on_exception e = Raise (ToolError msg).
Proof. destruct e; cbn [on_exception]; eauto. Qed.

Lemma execute_query_returned (self : OpenCTIClient) (net : remote) (query : string)
    (variables data : Py.json) :
  returned (net (query_request self query variables)) = Some data ->
  execute_query self net query variables = Ok data.
Proof.
  unfold returned, execute_query.
  destruct (net _) as [r | cause]; [ | discriminate ].
  unfold raise_for_status; cbn [post bind].
  destruct (is_success r); [ | discriminate ].
  destruct (json r) as [[ | | | | | body] | e]; try discriminate.
  cbn [bind contains_str].
  destruct (lookup "errors" body); [ discriminate | ].
  intros H. injection H as <-. rewrite get_field_or. reflexivity.
Qed.

(** X1.  Whatever the exchange comes to (an answer of any status and body,
    or a request error), [execute_query] either returns a value or raises a
    ToolError: no other exception leaves it. *)
Theorem execute_query_raises_only_tool_errors
    (self : OpenCTIClient) (net : remote) (query : string) (variables : Py.json) :
  (exists data : Py.json, execute_query self net query variables = Ok data) \/
  (exists msg : string, execute_query self net query variables = Raise (ToolError msg)).
Proof.
  unfold execute_query.
  match goal with
  | |- context [try_except ?body on_exception] => destruct body as [data | e]
  end.
  - left. exists data. reflexivity.
  - right. cbn [try_except]. apply on_exception_tool_error.
Qed.

(** X2.  [execute_query] returns a value exactly when the answer has a 2xx
    status and a JSON body that is an object without an [errors] member; the
    value is the [data] member of the body, or an empty dict when there is
    none. *)
Theorem execute_query_success_iff
    (self : OpenCTIClient) (net : remote) (query : string) (variables data : Py.json) :
  execute_query self net query variables = Ok data <->
  exists (r : Response) (body : list (string * Py.json)),
    net (query_request self query variables) = Answer r /\
    is_success r = true /\
    json r = Ok (JObj body) /\
    lookup "errors" body = None /\
    data = field_or (lookup "data" body) (JObj []).
Proof.
  split.
  - unfold execute_query.
    destruct (net (query_request self query variables)) as [r | cause] eqn:Hnet;
      [ | discriminate ].
    unfold raise_for_status; cbn [post bind].
    destruct (is_success r) eqn:Hst; [ | discriminate ].
    cbn [bind].
    destruct (json r) as [body | e] eqn:Hjson;
      [ | cbn [bind try_except]; destruct e; discriminate ].
    cbn [bind].
    destruct body as [ | b | z | t | items | body]; cbn [contains_str bind try_except type_name];
      try discriminate.
    + destruct (contains "errors" t); cbn; discriminate.
    + destruct (existsb (fun x => eq_str x "errors") items); cbn; discriminate.
    + destruct (lookup "errors" body) as [errors | ] eqn:Herr.
      * cbn [getitem]. rewrite Herr. cbn [bind].
        destruct (getitem errors (KInt 0)) as [first | e]; cbn [bind try_except].
        -- destruct (getitem first (KStr "message")) as [m | e]; cbn [bind try_except].
           ++ discriminate.
           ++ destruct e; discriminate.
        -- destruct e; discriminate.
      * rewrite get_field_or. cbn [try_except]. intros H. injection H as <-.
        exists r, body. auto.
  - intros (r & body & Hnet & Hst & Hjson & Herr & ->).
    apply execute_query_returned. unfold returned.
    rewrite Hnet, Hst, Hjson, Herr. reflexivity.
Qed.

(** X3.  When the body binds [errors] to anything at all (a list, null, a
    text), [execute_query] raises a ToolError and returns nothing, whatever
    [data] holds. *)
Theorem execute_query_errors_member_fails
    (self : OpenCTIClient) (net : remote) (query : string) (variables : Py.json)
    (r : Response) (body : list (string * Py.json)) (errors : Py.json) :
  net (query_request self query variables) = Answer r ->
  is_success r = true ->
  json r = Ok (JObj body) ->
  lookup "errors" body = Some errors ->
  exists msg : string, execute_query self net query variables = Raise (ToolError msg).
Proof.
  intros Hnet Hst Hjson Herr.
  rewrite (execute_query_errors _ _ _ _ _ _ _ Hnet Hst Hjson Herr).
  destruct (getitem errors (KInt 0)) as [first | e]; cbn [bind try_except].
  - destruct (getitem first (KStr "message")) as [m | e]; cbn [bind try_except];
      apply on_exception_tool_error.
  - apply on_exception_tool_error.
Qed.

Lemma execute_query_errors_member_fails_witness :
  lookup "errors" [("errors", JNull); ("data", JObj [("globalSearch", JObj [])])] = Some JNull /\
  exists msg : string,
    execute_query demo_client
      (answering 200 (JObj [("errors", JNull); ("data", JObj [("globalSearch", JObj [])])]))
      SEARCH_QUERY (JObj [("search", JStr "x")])
    = Raise (ToolError msg).
Proof.
  split; [ reflexivity | ].
  apply (execute_query_errors_member_fails demo_client
           (answering 200 (JObj [("errors", JNull); ("data", JObj [("globalSearch", JObj [])])]))
           SEARCH_QUERY (JObj [("search", JStr "x")]) _ _ _ eq_refl eq_refl eq_refl eq_refl).
Defined.

(** ** From the executor to the tools *)

Lemma call_tool_handle (client : OpenCTIClient) (net : remote) (c : tool_call) :
  request_of client c = query_request client (query_of c) (variables_of c) /\
  call_tool client net c
  = (data <- execute_query client net (query_of c) (variables_of c) ;; handle c data).
Proof. destruct c; split; reflexivity. Qed.

Lemma call_tool_returned (client : OpenCTIClient) (net : remote) (c : tool_call)
    (data : Py.json) :
  returned (net (request_of client c)) = Some data ->
  call_tool client net c = handle c data.
Proof.
  intros H. destruct (call_tool_handle client net c) as [Hreq Hrun].
  rewrite Hrun. rewrite Hreq in H.
  rewrite (execute_query_returned _ _ _ _ _ H). reflexivity.
Qed.

(** X4.  When the request cannot be sent or answered (DNS, refused
    connection, timeout), each tool raises a ToolError that says so and
    carries the cause. *)
Theorem network_failure_fails (client : OpenCTIClient) (net : remote) (c : tool_call)
    (cause : string) :
  net (request_of client c) = Failure cause ->
  call_tool client net c
  = Raise (ToolError ("No se pudo conectar al servidor OpenCTI: " ++ cause)).
Proof.
  intros H. destruct (call_tool_handle client net c) as [Hreq Hrun].
  rewrite Hrun. rewrite Hreq in H. unfold execute_query. rewrite H. reflexivity.
Qed.

Lemma network_failure_fails_witness :
  call_tool demo_client (refusing "All connection attempts failed") (CallEntity "APT28")
  = Raise (ToolError "No se pudo conectar al servidor OpenCTI: All connection attempts failed").
Proof.
  apply (network_failure_fails demo_client (refusing "All connection attempts failed")
           (CallEntity "APT28") _ eq_refl).
Defined.

(** X5.  When a 2xx answer has a body that is not JSON, each tool raises a
    ToolError [Error interno: ] followed by the decoder's message. *)
Theorem undecodable_body_fails (client : OpenCTIClient) (net : remote) (c : tool_call)
    (r : Response) (msg : string) :
  net (request_of client c) = Answer r ->
  is_success r = true ->
  json r = Raise (JSONDecodeError msg) ->
  call_tool client net c = Raise (ToolError ("Error interno: " ++ msg)).
Proof.
  intros H Hst Hjson. destruct (call_tool_handle client net c) as [Hreq Hrun].
  rewrite Hrun. rewrite Hreq in H. unfold execute_query. rewrite H.
  unfold raise_for_status; cbn [post bind]. rewrite Hst. cbn [bind]. rewrite Hjson.
  reflexivity.
Qed.

Lemma undecodable_body_fails_witness :
  call_tool demo_client
    (not_json 200 "<html>proxy</html>" "Expecting value: line 1 column 1 (char 0)")
    (CallSearch "emotet" None)
  = Raise (ToolError "Error interno: Expecting value: line 1 column 1 (char 0)").
Proof.
  apply (undecodable_body_fails demo_client
           (not_json 200 "<html>proxy</html>" "Expecting value: line 1 column 1 (char 0)")
           (CallSearch "emotet" None) _ _ eq_refl eq_refl eq_refl).
Defined.

(** X6.  A tool shows its no-results text, and raises nothing, also when the
    answer has no [data] member, when [data] lacks the tool's root, when the
    root has no [edges] member, and when [edges] is bound to null or another
    false value. *)
Theorem missing_edges_sentinel (client : OpenCTIClient) (net : remote) (c : tool_call)
    (data : Py.json) :
  returned (net (request_of client c)) = Some data ->
  edges_missing (root_of c) data = true ->
  call_tool client net c = Ok (no_results c).
Proof.
  intros Hret Hmiss. rewrite (call_tool_returned _ _ _ _ Hret).
  unfold edges_missing in Hmiss. unfold handle.
  destruct data as [ | | | | | d]; try discriminate.
  cbn [get].
  destruct (lookup (root_of c) d) as [[ | | | | | conn] | ]; try discriminate.
  - cbn [bind get].
    destruct (lookup "edges" conn) as [v | ]; cbn [bind].
    + rewrite Hmiss. reflexivity.
    + reflexivity.
  - reflexivity.
Qed.

Lemma missing_edges_sentinel_witness :
  returned (answering 200 (JObj []) (request_of demo_client (CallEntity "APT28")))
  = Some (JObj []) /\
  call_tool demo_client (answering 200 (JObj [])) (CallEntity "APT28")
  = Ok "No se encontró la entidad: APT28".
Proof.
  split; [ reflexivity | ].
  apply (missing_edges_sentinel demo_client (answering 200 (JObj [])) (CallEntity "APT28")
           _ eq_refl eq_refl).
Defined.

(** X7.  When [data] is null (or anything but a dict), or binds the tool's
    root to null (or anything but a dict), the tool raises the AttributeError
    of the failed [.get] as it is: what fails after [execute_query] returned
    is not turned into a ToolError. *)
Theorem null_data_raises_attribute_error (client : OpenCTIClient) (net : remote)
    (c : tool_call) (data v : Py.json) :
  returned (net (request_of client c)) = Some data ->
  not_a_dict_at (root_of c) data = Some v ->
  call_tool client net c
  = Raise (AttributeError ("'" ++ type_name v ++ "' object has no attribute 'get'")).
Proof.
  intros Hret Hv. rewrite (call_tool_returned _ _ _ _ Hret).
  unfold not_a_dict_at in Hv. unfold handle.
  destruct data as [ | | | | | d]; try (injection Hv as <-; reflexivity).
  cbn [get].
  destruct (lookup (root_of c) d) as [w | ]; [ | discriminate ].
  destruct w; try discriminate; injection Hv as <-; reflexivity.
Qed.

Lemma null_data_raises_attribute_error_witness :
  returned (answering 200 (JObj [("data", JNull)])
              (request_of demo_client (CallObservable "8.8.8.8")))
  = Some JNull /\
  call_tool demo_client (answering 200 (JObj [("data", JNull)])) (CallObservable "8.8.8.8")
  = Raise (AttributeError "'NoneType' object has no attribute 'get'").
Proof.
  split; [ reflexivity | ].
  apply (null_data_raises_attribute_error demo_client (answering 200 (JObj [("data", JNull)]))
           (CallObservable "8.8.8.8") _ _ eq_refl eq_refl).
Defined.

(** X8.  The result of a tool call depends on the remote through the answer
    to one request only: the one with the client's URL and headers and a
    body made of the tool's fixed template and of a [variables] object that
    carries the arguments (the limit being 10 when omitted).  The arguments
    never enter the query text. *)
Theorem tool_call_sends_one_request (client : OpenCTIClient) (c : tool_call) :
  (forall net1 net2 : remote,
      net1 (request_of client c) = net2 (request_of client c) ->
      call_tool client net1 c = call_tool client net2 c) /\
  url (request_of client c) = base_url client /\
  headers (request_of client c) = client_headers client /\
  payload (request_of client c)
  = JObj [ ("query", JStr match c with
                          | CallSearch _ _ => SEARCH_QUERY
                          | CallObservable _ => GET_OBSERVABLE_QUERY
                          | CallEntity _ => GET_ENTITY_QUERY
                          end);
           ("variables", match c with
                         | CallSearch keyword limit =>
                             JObj [("search", JStr keyword);
                                   ("first", JNum match limit with Some n => n | None => 10 end)]
                         | CallObservable value => JObj [("value", JStr value)]
                         | CallEntity name => JObj [("name", JStr name)]
                         end) ].
Proof.
  split; [ | destruct c; repeat split ].
  intros net1 net2 H.
  destruct (call_tool_handle client net1 c) as [Hreq ->].
  destruct (call_tool_handle client net2 c) as [_ ->].
  rewrite Hreq in H. unfold execute_query. rewrite H. reflexivity.
Qed.

(** ** The client and the configuration *)

Lemma rstrip_repeat (c : ascii) (k : nat) : rstrip c (repeat_char c k) = EmptyString.
Proof.
  induction k as [ | k IH]; [ reflexivity | ].
  cbn [repeat_char rstrip]. rewrite IH, Ascii.eqb_refl. reflexivity.
Qed.

Lemma rstrip_app_repeat (c : ascii) (s : string) (k : nat) :
  rstrip c (s ++ repeat_char c k) = rstrip c s.
Proof.
  induction s as [ | a s IH].
  - apply rstrip_repeat.
  - simpl append. cbn [rstrip]. rewrite IH. reflexivity.
Qed.

Lemma rstrip_decompose (c : ascii) (s : string) :
  exists k : nat,
    s = rstrip c s ++ repeat_char c k /\ ends_with c (rstrip c s) = false.
Proof.
  induction s as [ | a s (k & Hs & Hend)].
  - exists O. split; reflexivity.
  - cbn [rstrip]. destruct (rstrip c s) as [ | b kept] eqn:Hr; simpl in Hs.
    + destruct (Ascii.eqb a c) eqn:Hac.
      * apply Ascii.eqb_eq in Hac. subst a. exists (S k).
        split; [ | reflexivity ]. simpl. congruence.
      * exists k. split; [ | simpl; exact Hac ]. simpl. congruence.
    + exists k. split; [ | exact Hend ]. simpl. congruence.
Qed.

(** X9.  The client's endpoint is the configured URL without its trailing
    slashes, followed by [/graphql]: the URL is a stem that does not end with
    a slash plus some slashes, the endpoint is the stem plus [/graphql], and
    adding slashes to the URL gives the same client. *)
Theorem new_client_strips_trailing_slashes (url token : string) :
  (exists (stem : string) (k : nat),
      url = stem ++ repeat_char "/" k /\
      ends_with "/" stem = false /\
      base_url (new_client url token) = stem ++ "/graphql") /\
  (forall k : nat, new_client (url ++ repeat_char "/" k) token = new_client url token).
Proof.
  split.
  - destruct (rstrip_decompose "/" url) as (k & Hurl & Hend).
    exists (rstrip "/" url), k. repeat split; assumption.
  - intros k. unfold new_client. rewrite rstrip_app_repeat. reflexivity.
Qed.

(** X10.  Past the logging setup, the module builds its client exactly when
    both [OPENCTI_URL] and [OPENCTI_TOKEN] are set and not empty; the client is
    then the one built from these two values, and in every other case the
    import raises the ValueError. *)
Theorem load_client_ready_iff (OPENCTI_URL OPENCTI_TOKEN : option string)
    (client : OpenCTIClient) :
  (load_client OPENCTI_URL OPENCTI_TOKEN = Ready client <->
   exists url token : string,
     OPENCTI_URL = Some url /\ OPENCTI_TOKEN = Some token /\
     url <> EmptyString /\ token <> EmptyString /\
     client = new_client url token) /\
  ((forall c, load_client OPENCTI_URL OPENCTI_TOKEN <> Ready c) ->
   load_client OPENCTI_URL OPENCTI_TOKEN
   = ValueError "Faltan OPENCTI_URL o OPENCTI_TOKEN en el archivo .env").
Proof.
  split; [ split | ].
  - unfold load_client.
    destruct OPENCTI_URL as [url | ]; [ | discriminate ].
    destruct OPENCTI_TOKEN as [token | ]; [ | discriminate ].
    destruct (String.eqb url EmptyString) eqn:Hu; [ discriminate | ].
    destruct (String.eqb token EmptyString) eqn:Ht; [ discriminate | ].
    cbn [orb]. intros H. injection H as <-.
    apply String.eqb_neq in Hu, Ht. exists url, token. auto.
  - intros (url & token & -> & -> & Hu & Ht & ->).
    apply String.eqb_neq in Hu, Ht. unfold load_client. rewrite Hu, Ht. reflexivity.
  - unfold load_client.
    destruct OPENCTI_URL as [url | ]; [ | reflexivity ].
    destruct OPENCTI_TOKEN as [token | ]; [ | reflexivity ].
    destruct (String.eqb url EmptyString || String.eqb token EmptyString)%bool;
      [ reflexivity | ].
    intros H. exfalso. apply (H _ eq_refl).
Qed.

(** ** One entry of a search *)

Lemma or_default2_cases (a b : option Py.json) (placeholder : string) :
  (forall v, a = Some v -> truthy v = true -> or_default2 a b placeholder = v) /\
  (forall w, falsy_or_absent a = true -> b = Some w -> truthy w = true ->
             or_default2 a b placeholder = w) /\
  (falsy_or_absent a = true -> falsy_or_absent b = true ->
   or_default2 a b placeholder = JStr placeholder).
Proof.
  unfold or_default2, or_default, falsy_or_absent. repeat split.
  - intros v -> Hv. rewrite Hv. reflexivity.
  - intros w Ha -> Hw. rewrite Hw.
    destruct a as [x | ]; [ | reflexivity ].
    apply negb_true_iff in Ha. rewrite Ha. reflexivity.
  - intros Ha Hb.
    assert (Hb' : match b with
                  | Some x => if truthy x then x else JStr placeholder
                  | None => JStr placeholder
                  end = JStr placeholder).
    { destruct b as [y | ]; [ | reflexivity ].
      apply negb_true_iff in Hb. rewrite Hb. reflexivity. }
    destruct a as [x | ]; [ | exact Hb' ].
    apply negb_true_iff in Ha. rewrite Ha. exact Hb'.
Qed.

(** X11.  In a search entry the label is the record's [name] when that is
    there and true; otherwise its [observable_value] when that is there and
    true; otherwise [Desconocido].  The description is chosen the same way
    among [description], [x_opencti_description] and [Sin descripción].  An
    empty or null field counts as absent. *)
Theorem search_entry_label_precedence (edge t id : Py.json) :
  node_field "entity_type" edge = Some t ->
  node_field "id" edge = Some id ->
  exists label desc : Py.json,
    search_entry edge
    = Ok ("- [" ++ str t ++ "] " ++ str label ++ " (ID: " ++ str id ++ "): " ++ str desc) /\
    (forall v, node_field "name" edge = Some v -> truthy v = true -> label = v) /\
    (forall w, falsy_or_absent (node_field "name" edge) = true ->
               node_field "observable_value" edge = Some w -> truthy w = true ->
               label = w) /\
    (falsy_or_absent (node_field "name" edge) = true ->
     falsy_or_absent (node_field "observable_value" edge) = true ->
     label = JStr "Desconocido") /\
    (forall v, node_field "description" edge = Some v -> truthy v = true -> desc = v) /\
    (forall w, falsy_or_absent (node_field "description" edge) = true ->
               node_field "x_opencti_description" edge = Some w -> truthy w = true ->
               desc = w) /\
    (falsy_or_absent (node_field "description" edge) = true ->
     falsy_or_absent (node_field "x_opencti_description" edge) = true ->
     desc = JStr "Sin descripción").
Proof.
  intros Ht Hid. do 2 eexists.
  split; [ apply (search_entry_text edge t id Ht Hid) | ].
  destruct (or_default2_cases (node_field "name" edge)
              (node_field "observable_value" edge) "Desconocido") as (H1 & H2 & H3).
  destruct (or_default2_cases (node_field "description" edge)
              (node_field "x_opencti_description" edge) "Sin descripción") as (H4 & H5 & H6).
  repeat split; assumption.
Qed.

Lemma search_entry_label_precedence_witness :
  search_entry both_labels_hit
  = Ok "- [Artifact] payload.bin (ID: x--1): Sin descripción".
Proof.
  destruct (search_entry_label_precedence both_labels_hit (JStr "Artifact") (JStr "x--1")
              eq_refl eq_refl)
    as (label & desc & Hrun & _ & Hvalue & _ & _ & _ & Hnone).
  rewrite Hrun.
  rewrite (Hvalue (JStr "payload.bin") eq_refl eq_refl eq_refl).
  rewrite (Hnone eq_refl eq_refl). reflexivity.
Defined.

(** ** Null and ill-typed fields of an observable *)

(** X12.  When the first observable record binds [indicators] to null (or to
    anything but a dict), [get_observable_details] raises the AttributeError
    of the failed [.get]: the default of [node.get("indicators", {})] serves
    an absent key only.  The same holds of [reports] once the indicators are
    read. *)
Theorem null_relation_raises_attribute_error
    (client : OpenCTIClient) (net : remote) (value : string) (data first : Py.json)
    (rest : list Py.json) (nf : list (string * Py.json)) (f : string) (v : Py.json) :
  delivered (net (request_of client (CallObservable value))) = Some data ->
  edges_at "stixCyberObservables" data = Some (first :: rest) ->
  getitem first (KStr "node") = Ok (JObj nf) ->
  lookup f nf = Some v ->
  is_dict v = false ->
  f = "indicators" \/
  (f = "reports" /\ exists names, related_indicators (JObj nf) = Ok names) ->
  get_observable_details client net value
  = Raise (AttributeError ("'" ++ type_name v ++ "' object has no attribute 'get'")).
Proof.
  intros Hd He Hnode Hf Hv Hcase.
  pose proof (call_tool_delivered client net (CallObservable value) data _ Hd He) as Hrun.
  cbn [call_tool on_edges] in Hrun. rewrite Hrun, Hnode. cbn [bind].
  unfold observable_output.
  destruct Hcase as [-> | [-> [names Hnames]]].
  - unfold related_indicators. cbn [get]. rewrite Hf. cbn [bind].
    destruct v; try discriminate; reflexivity.
  - rewrite Hnames. cbn [bind].
    unfold related_reports. cbn [get]. rewrite Hf. cbn [bind].
    destruct v; try discriminate; reflexivity.
Qed.

Lemma null_relation_raises_attribute_error_witness :
  lookup "indicators" null_indicators_node = Some JNull /\
  get_observable_details demo_client
    (answering 200 (data_body "stixCyberObservables" [edge_of null_indicators_node])) "5.5.5.5"
  = Raise (AttributeError "'NoneType' object has no attribute 'get'").
Proof.
  split; [ reflexivity | ].
  apply (null_relation_raises_attribute_error demo_client
           (answering 200 (data_body "stixCyberObservables" [edge_of null_indicators_node]))
           "5.5.5.5" _ _ _ null_indicators_node "indicators" JNull
           eq_refl eq_refl eq_refl eq_refl eq_refl (or_introl eq_refl)).
Defined.

Lemma or_default_cases (a : option Py.json) (placeholder : string) :
  (falsy_or_absent a = true -> or_default a placeholder = JStr placeholder) /\
  (forall v, a = Some v -> truthy v = true -> or_default a placeholder = v).
Proof.
  unfold or_default, falsy_or_absent. split.
  - destruct a as [x | ]; [ | reflexivity ].
    intros H. apply negb_true_iff in H. rewrite H. reflexivity.
  - intros v -> H. rewrite H. reflexivity.
Qed.

(** X13.  In both detail tools a scalar field printed through [or 'N/A'] shows
    [N/A] whenever it is absent, null or otherwise false, and shows its value
    whenever that is true: score and description of an observable,
    description and creation date of an entity. *)
Theorem scalar_fields_fall_back_to_na (nf : list (string * Py.json)) :
  (observable_record nf = true ->
   exists output : list string,
     observable_output (JObj nf) = Ok output /\
     (falsy_or_absent (lookup "x_opencti_score" nf) = true ->
      nth_error output 2 = Some "Score: N/A") /\
     (forall v, lookup "x_opencti_score" nf = Some v -> truthy v = true ->
                nth_error output 2 = Some ("Score: " ++ str v)) /\
     (falsy_or_absent (lookup "x_opencti_description" nf) = true ->
      nth_error output 3 = Some "Descripción: N/A") /\
     (forall v, lookup "x_opencti_description" nf = Some v -> truthy v = true ->
                nth_error output 3 = Some ("Descripción: " ++ str v))) /\
  (entity_record nf = true ->
   exists output : list string,
     entity_output (JObj nf) = Ok output /\
     (falsy_or_absent (lookup "description" nf) = true ->
      nth_error output 2 = Some "Descripción: N/A") /\
     (forall v, lookup "description" nf = Some v -> truthy v = true ->
                nth_error output 2 = Some ("Descripción: " ++ str v)) /\
     (falsy_or_absent (lookup "created" nf) = true ->
      nth_error output 3 = Some "Creado: N/A") /\
     (forall v, lookup "created" nf = Some v -> truthy v = true ->
                nth_error output 3 = Some ("Creado: " ++ str v))).
Proof.
  split.
  - intros Hrec.
    destruct (observable_record_output nf Hrec)
      as (t & v & names & reports & _ & _ & _ & _ & Hout).
    rewrite Hout. eexists. split; [ reflexivity | ].
    destruct (or_default_cases (lookup "x_opencti_score" nf) "N/A") as [Hs1 Hs2].
    destruct (or_default_cases (lookup "x_opencti_description" nf) "N/A") as [Hd1 Hd2].
    cbn [nth_error]. repeat split.
    + intros H. rewrite (Hs1 H). reflexivity.
    + intros w Hw Ht. rewrite (Hs2 w Hw Ht). reflexivity.
    + intros H. rewrite (Hd1 H). reflexivity.
    + intros w Hw Ht. rewrite (Hd2 w Hw Ht). reflexivity.
  - intros Hrec. unfold entity_record in Hrec. apply andb_prop in Hrec as [Hn Ht].
    apply present_inv in Hn as [n Hn]. apply present_inv in Ht as [t Ht].
    rewrite (entity_output_lines nf n t Hn Ht). eexists. split; [ reflexivity | ].
    destruct (or_default_cases (lookup "description" nf) "N/A") as [Hs1 Hs2].
    destruct (or_default_cases (lookup "created" nf) "N/A") as [Hd1 Hd2].
    cbn [nth_error List.app]. repeat split.
    + intros H. rewrite (Hs1 H). reflexivity.
    + intros w Hw Hv. rewrite (Hs2 w Hw Hv). reflexivity.
    + intros H. rewrite (Hd1 H). reflexivity.
    + intros w Hw Hv. rewrite (Hd2 w Hw Hv). reflexivity.
Qed.

Lemma scalar_fields_fall_back_to_na_witness :
  observable_record null_score_node = true /\
  exists output : list string,
    observable_output (JObj null_score_node) = Ok output /\
    nth_error output 2 = Some "Score: N/A" /\
    nth_error output 3 = Some "Descripción: Sinkhole".
Proof.
  split; [ reflexivity | ].
  destruct (proj1 (scalar_fields_fall_back_to_na null_score_node) eq_refl)
    as (output & Hout & Hscore & _ & _ & Hdesc).
  exists output. split; [ exact Hout | ].
  split; [ exact (Hscore eq_refl) | exact (Hdesc (JStr "Sinkhole") eq_refl eq_refl) ].
Defined.

Lemma for_each_app {A B : Type} (body : A -> result B) (xs ys : list A) :
  for_each body (xs ++ ys)%list
  = (a <- for_each body xs ;; b <- for_each body ys ;; Ok (a ++ b)%list).
Proof.
  induction xs as [ | x xs IH]; cbn [List.app for_each bind].
  - destruct (for_each body ys); reflexivity.
  - destruct (body x) as [y | e]; cbn [bind]; [ | reflexivity ].
    rewrite IH. destruct (for_each body xs) as [a | e]; cbn [bind]; [ | reflexivity ].
    destruct (for_each body ys) as [b | e]; reflexivity.
Qed.

Lemma strings_from_first_other (good : list string) (v : Py.json) (tail : list Py.json)
    (pos : nat) :
  is_str v = false ->
  strings_from pos (map JStr good ++ v :: tail)%list
  = Raise (TypeError ("sequence item " ++ str_int (Z.of_nat (pos + length good))
                      ++ ": expected str instance, " ++ type_name v ++ " found")).
Proof.
  intros Hv. revert pos. induction good as [ | g good IH]; intros pos.
  - cbn [map List.app length]. rewrite Nat.add_0_r.
    destruct v; try discriminate; reflexivity.
  - cbn [map List.app length strings_from]. rewrite (IH (S pos)). cbn [bind].
    rewrite Nat.add_succ_r. reflexivity.
Qed.

(** X14.  When the indicators of the first observable record all have a
    [name] but one of them is not a str (null, say), the record being
    otherwise well formed, [get_observable_details] raises the TypeError of
    [', '.join], which names the position of the first such indicator. *)
Theorem non_str_indicator_name_raises_type_error
    (client : OpenCTIClient) (net : remote) (value : string) (data first : Py.json)
    (rest : list Py.json) (nf : list (string * Py.json))
    (good others : list Py.json) (bad v : Py.json) (tail : list Py.json)
    (reports : list string) :
  delivered (net (request_of client (CallObservable value))) = Some data ->
  edges_at "stixCyberObservables" data = Some (first :: rest) ->
  getitem first (KStr "node") = Ok (JObj nf) ->
  present "entity_type" nf = true ->
  present "observable_value" nf = true ->
  relation_edges "indicators" nf = Some (good ++ bad :: others)%list ->
  forallb named_edge good = true ->
  node_field "name" bad = Some v ->
  is_str v = false ->
  for_each (fun i => n <- getitem i (KStr "node") ;; getitem n (KStr "name")) others = Ok tail ->
  related_reports (JObj nf) = Ok reports ->
  get_observable_details client net value
  = Raise (TypeError ("sequence item " ++ str_int (Z.of_nat (length good))
                      ++ ": expected str instance, " ++ type_name v ++ " found")).
Proof.
  intros Hd He Hnode Ht Hv Hie Hgood Hbad Hstr Htail Hrep.
  pose proof (call_tool_delivered client net (CallObservable value) data _ Hd He) as Hrun.
  cbn [call_tool on_edges] in Hrun. rewrite Hrun, Hnode. cbn [bind].
  apply present_inv in Ht as [t Ht]. apply present_inv in Hv as [ov Hv].
  unfold observable_output, related_indicators.
  rewrite (relation_read _ _ _ _ Hie), for_each_app.
  rewrite (indicator_names_read _ Hgood). cbn [bind for_each].
  rewrite (node_field_read _ _ _ Hbad). cbn [bind]. rewrite Htail. cbn [bind].
  rewrite Hrep. cbn [bind getitem]. rewrite Ht, Hv. cbn [bind].
  rewrite !get_or_placeholder. cbn [bind].
  unfold join_values.
  rewrite (strings_from_first_other (map edge_name good) v tail 0 Hstr).
  rewrite length_map. cbn [Nat.add bind].
  destruct (map JStr (map edge_name good) ++ v :: tail)%list eqn:Hl; [ | reflexivity ].
  apply app_eq_nil in Hl as [_ Hl]. discriminate.
Qed.

Lemma non_str_indicator_name_raises_type_error_witness :
  relation_edges "indicators" null_name_node
  = Some ([edge_of [("name", JStr "Known scanner")]] ++ edge_of [("name", JNull)] :: [])%list /\
  get_observable_details demo_client
    (answering 200 (data_body "stixCyberObservables" [edge_of null_name_node])) "6.6.6.6"
  = Raise (TypeError "sequence item 1: expected str instance, NoneType found").
Proof.
  split; [ reflexivity | ].
  apply (non_str_indicator_name_raises_type_error demo_client
           (answering 200 (data_body "stixCyberObservables" [edge_of null_name_node]))
           "6.6.6.6" _ _ _ null_name_node
           [edge_of [("name", JStr "Known scanner")]] [] (edge_of [("name", JNull)]) JNull
           [] []
           eq_refl eq_refl eq_refl eq_refl eq_refl eq_refl eq_refl eq_refl eq_refl
           eq_refl eq_refl).
Defined.

(** ** The whole answer *)

(** X15.  A search does not return part of its results: when the entries
    before some edge are formatted and that edge fails (it lacks its [id],
    say), [search_knowledge_base] raises that edge's exception, whatever
    follows. *)
Theorem search_fails_as_a_whole
    (client : OpenCTIClient) (net : remote) (keyword : string) (limit : option Z)
    (data : Py.json) (good rest : list Py.json) (bad : Py.json) (e : exn) :
  delivered (net (request_of client (CallSearch keyword limit))) = Some data ->
  edges_at "globalSearch" data = Some (good ++ bad :: rest)%list ->
  forallb hit_record good = true ->
  search_entry bad = Raise e ->
  call_tool client net (CallSearch keyword limit) = Raise e.
Proof.
  intros Hd He Hgood Hbad.
  rewrite (call_tool_delivered client net (CallSearch keyword limit) data _ Hd He).
  unfold on_edges. rewrite for_each_app.
  destruct (search_entries _ Hgood) as (results & -> & _).
  cbn [bind for_each]. rewrite Hbad. cbn [bind].
  destruct (good ++ bad :: rest)%list eqn:Hl; [ | reflexivity ].
  apply app_eq_nil in Hl as [_ Hl]. discriminate.
Qed.

Lemma search_fails_as_a_whole_witness :
  search_entry no_id_hit = Raise (KeyError (KStr "id")) /\
  call_tool demo_client
    (answering 200 (data_body "globalSearch" [emotet_hit; no_id_hit; resolver_hit]))
    (CallSearch "e" None)
  = Raise (KeyError (KStr "id")).
Proof.
  split; [ reflexivity | ].
  apply (search_fails_as_a_whole demo_client
           (answering 200 (data_body "globalSearch" [emotet_hit; no_id_hit; resolver_hit]))
           "e" None _ [emotet_hit] [resolver_hit] no_id_hit _
           eq_refl eq_refl eq_refl eq_refl).
Defined.

(** X16.  For a well-formed first observable record whose six entries hold
    no newline, the text of [get_observable_details] has exactly six lines:
    [Tipo], [Valor], [Score], [Descripción], [Indicadores asociados] and
    [Mencionado en reportes], in this order, each followed by the record's
    value or its placeholder. *)
Theorem observable_details_six_lines
    (client : OpenCTIClient) (net : remote) (value : string) (data first : Py.json)
    (rest : list Py.json) (nf : list (string * Py.json)) (t v : Py.json)
    (ies res : list Py.json) :
  delivered (net (request_of client (CallObservable value))) = Some data ->
  edges_at "stixCyberObservables" data = Some (first :: rest) ->
  getitem first (KStr "node") = Ok (JObj nf) ->
  lookup "entity_type" nf = Some t ->
  lookup "observable_value" nf = Some v ->
  relation_edges "indicators" nf = Some ies ->
  forallb named_edge ies = true ->
  relation_edges "reports" nf = Some res ->
  forallb report_edge res = true ->
  forallb (fun line => negb (has_char newline line)) (observable_lines nf t v ies res) = true ->
  exists text : string,
    get_observable_details client net value = Ok text /\
    split_lines text
    = [ "Tipo: " ++ str t;
        "Valor: " ++ str v;
        "Score: " ++ str (or_default (lookup "x_opencti_score" nf) "N/A");
        "Descripción: " ++ str (or_default (lookup "x_opencti_description" nf) "N/A");
        "Indicadores asociados: "
        ++ match ies with [] => "Ninguno" | _ => join ", " (map edge_name ies) end;
        "Mencionado en reportes: "
        ++ match res with [] => "Ninguno" | _ => join ", " (map report_text res) end ] /\
    length (split_lines text) = 6%nat.
Proof.
  intros Hd He Hnode Ht Hv Hie Hind Hre Hrep Hnl.
  pose proof (call_tool_delivered client net (CallObservable value) _ _ Hd He) as H.
  cbn [call_tool on_edges] in H. rewrite H, Hnode. cbn [bind].
  rewrite (observable_output_text nf t v ies res Ht Hv Hie Hind Hre Hrep). cbn [bind].
  eexists. split; [ reflexivity | ].
  rewrite split_lines_join; [ | unfold observable_lines; discriminate | exact Hnl ].
  split; reflexivity.
Qed.

Lemma observable_details_six_lines_witness :
  forallb (fun line => negb (has_char newline line))
    (observable_lines bare_observable_node (JStr "IPv4-Addr") (JStr "4.4.4.4") [] []) = true /\
  exists text : string,
    get_observable_details demo_client
      (answering 200 (data_body "stixCyberObservables" [edge_of bare_observable_node])) "4.4.4.4"
    = Ok text /\
    split_lines text
    = [ "Tipo: IPv4-Addr"; "Valor: 4.4.4.4"; "Score: N/A"; "Descripción: N/A";
        "Indicadores asociados: Ninguno"; "Mencionado en reportes: Ninguno" ] /\
    length (split_lines text) = 6%nat.
Proof.
  split; [ reflexivity | ].
  exact (observable_details_six_lines demo_client
           (answering 200 (data_body "stixCyberObservables" [edge_of bare_observable_node]))
           "4.4.4.4" _ _ _ bare_observable_node (JStr "IPv4-Addr") (JStr "4.4.4.4") [] []
           eq_refl eq_refl eq_refl eq_refl eq_refl eq_refl eq_refl eq_refl eq_refl eq_refl).
Defined.

(** X17.  For a first entity record with its [name] and [entity_type] whose
    entries hold no newline, the text of [get_threat_entity] has the lines
    [Nombre], [Tipo], [Descripción], [Creado] and then the two lines [Tipos]
    and [Objetivos] for a [Threat-Actor], the line [Familia de malware] for a
    [Malware], nothing for any other type: six, five or four lines. *)
Theorem threat_entity_line_count
    (client : OpenCTIClient) (net : remote) (name : string) (data first : Py.json)
    (rest : list Py.json) (nf : list (string * Py.json)) (n t : Py.json) :
  delivered (net (request_of client (CallEntity name))) = Some data ->
  edges_at "stixDomainObjects" data = Some (first :: rest) ->
  getitem first (KStr "node") = Ok (JObj nf) ->
  lookup "name" nf = Some n ->
  lookup "entity_type" nf = Some t ->
  forallb (fun line => negb (has_char newline line)) (entity_lines nf n t) = true ->
  exists text : string,
    get_threat_entity client net name = Ok text /\
    split_lines text
    = List.app
        [ "Nombre: " ++ str n;
          "Tipo: " ++ str t;
          "Descripción: " ++ str (or_default (lookup "description" nf) "N/A");
          "Creado: " ++ str (or_default (lookup "created" nf) "N/A") ]
        (if eq_str t "Threat-Actor"
         then [ "Tipos: " ++ str (field_or (lookup "threat_actor_types" nf) (JArr []));
                "Objetivos: " ++ str (field_or (lookup "goals" nf) (JArr [])) ]
         else if eq_str t "Malware"
         then [ "Familia de malware: "
                ++ str (field_or (lookup "is_family" nf) (JBool false)) ]
         else []) /\
    length (split_lines text)
    = (if eq_str t "Threat-Actor" then 6 else if eq_str t "Malware" then 5 else 4)%nat.
Proof.
  intros Hd He Hnode Hn Ht Hnl.
  pose proof (call_tool_delivered client net (CallEntity name) _ _ Hd He) as H.
  cbn [call_tool on_edges] in H. rewrite H, Hnode. cbn [bind].
  rewrite (entity_output_text nf n t Hn Ht). cbn [bind].
  eexists. split; [ reflexivity | ].
  rewrite split_lines_join; [ | unfold entity_lines; discriminate | exact Hnl ].
  assert (Hexcl : eq_str t "Threat-Actor" = true -> eq_str t "Malware" = false).
  { destruct t; try reflexivity. cbn [eq_str]. intros Hta.
    apply String.eqb_eq in Hta. subst. reflexivity. }
  unfold entity_lines.
  destruct (eq_str t "Threat-Actor").
  - rewrite (Hexcl eq_refl). split; reflexivity.
  - destruct (eq_str t "Malware"); split; reflexivity.
Qed.

Lemma threat_entity_line_count_witness :
  forallb (fun line => negb (has_char newline line))
    (entity_lines plain_malware_node (JStr "Emotet") (JStr "Malware")) = true /\
  exists text : string,
    get_threat_entity demo_client
      (answering 200 (data_body "stixDomainObjects" [edge_of plain_malware_node])) "Emotet"
    = Ok text /\
    split_lines text
    = [ "Nombre: Emotet"; "Tipo: Malware"; "Descripción: N/A"; "Creado: N/A";
        "Familia de malware: True" ] /\
    length (split_lines text) = 5%nat.
Proof.
  split; [ reflexivity | ].
  exact (threat_entity_line_count demo_client
           (answering 200 (data_body "stixDomainObjects" [edge_of plain_malware_node])) "Emotet"
           _ _ _ plain_malware_node (JStr "Emotet") (JStr "Malware")
           eq_refl eq_refl eq_refl eq_refl eq_refl eq_refl).
Defined.
